(** * dbt-bq-sourcegen: reconciliation of a dbt source document with a
      BigQuery snapshot, and the dictionary form written to YAML.

    The development embeds
      - [logic/merge_strategy.py]: [merge_columns], [merge_table],
        [merge_sources], [merge_source_file];
      - [io/yaml_handler.py]: [_serialize_source_file], [_parse_source_file];
      - [cli.py]: the update path of [apply].
    Python dictionaries used as indexes are [gmap string _]; the dictionaries
    handed to the YAML writer keep their insertion order and are association
    lists. *)

From Stdlib Require Import ZArith.
From stdpp Require Import base option strings list gmap.

Open Scope string_scope.
Open Scope list_scope.
Set Warnings "-register-all".

(** ** Raw YAML data, as loaded or dumped by the YAML library *)

Inductive Yaml : Type :=
  | YNull
  | YBool (b : bool)
  | YInt (z : Z)
  | YStr (s : string)
  | YList (items : list Yaml)
  | YMap (entries : list (string * Yaml)).

(** An insertion-ordered Python [dict] with string keys. *)
Definition dict : Type := list (string * Yaml).

(** ** Entity model

    Modelled from the spec: the record classes of [types/bigquery.py] and
    [types/dbt.py] are not part of the sources at hand; the fields are those
    the code reads and writes, typed as section 3 of the specification gives
    them (a description of a document entity is a string, never null; the
    description of a remote entity is optional). *)

Record BigQueryColumn : Type := {
  bqc_name : string;
  bqc_field_type : string;
  bqc_description : option string;
}.

Record BigQueryTable : Type := {
  bqt_table_id : string;
  bqt_description : option string;
  bqt_columns : list BigQueryColumn;
}.

Record DbtColumn : Type := {
  col_name : string;
  col_data_type : option string;
  col_description : string;
  col_meta : option dict;
  col_tests : option (list Yaml);
}.

Record DbtTable : Type := {
  tbl_name : string;
  tbl_identifier : option string;
  tbl_description : string;
  tbl_columns : list DbtColumn;
  tbl_meta : option dict;
  tbl_tests : option (list Yaml);
}.

Record DbtSource : Type := {
  src_name : string;
  src_database : option string;
  src_schema_name : option string;
  src_description : string;
  src_tables : list DbtTable;
  src_meta : option dict;
}.

Record DbtSourceFile : Type := {
  sf_version : Z;
  sf_sources : list DbtSource;
}.

(** ** Python truthiness and [or] *)

Definition truthy_str (s : string) : bool :=
  match s with EmptyString => false | String _ _ => true end.

Definition truthy_list {A} (l : list A) : bool :=
  match l with [] => false | _ :: _ => true end.

(** Truthiness of an optional value: [None] is falsy, a present value is
    judged by [t]. *)
Definition truthy_opt {A} (t : A → bool) (o : option A) : bool :=
  match o with Some x => t x | None => false end.

(** [a or b] where [a] is an optional string and [b] a string. *)
Definition or_str (a : option string) (b : string) : string :=
  match a with
  | Some s => if truthy_str s then s else b
  | None => b
  end.

(** [a == b] where [a] is an optional string and [b] a string. *)
Definition opt_str_eqb (a : option string) (b : string) : bool :=
  match a with Some s => String.eqb s b | None => false end.

(** [{key(x): x for x in l}]: later entries overwrite earlier ones. *)
Definition index_by {A} (key : A → string) (l : list A) : gmap string A :=
  foldl (λ m x, <[key x := x]> m) ∅ l.

(** ** [logic/source_builder.py] *)

(** Modelled from the spec: [build_column_from_bigquery] is not part of the
    sources at hand. Section 4.1: a Column constructed purely from the remote
    descriptor, data type from remote, description from remote (or empty),
    metadata and tests absent. *)
Definition build_column_from_bigquery (bq_col : BigQueryColumn) : DbtColumn :=
  {| col_name := bqc_name bq_col;
     col_data_type := Some (bqc_field_type bq_col);
     col_description := or_str (bqc_description bq_col) "";
     col_meta := None;
     col_tests := None |}.

(** Modelled from the spec: [build_table_from_bigquery] is not part of the
    sources at hand. Section 4.2: name = table id, identifier unset,
    description = remote description or empty, columns built fresh from each
    column descriptor, metadata and tests absent. *)
Definition build_table_from_bigquery (bq_table : BigQueryTable) : DbtTable :=
  {| tbl_name := bqt_table_id bq_table;
     tbl_identifier := None;
     tbl_description := or_str (bqt_description bq_table) "";
     tbl_columns := build_column_from_bigquery <$> bqt_columns bq_table;
     tbl_meta := None;
     tbl_tests := None |}.

(** ** [logic/merge_strategy.py]

    The tests [if not yaml_table], [if not yaml_source] and [if not yaml_file]
    are tests for [None]: an instance of a record class is truthy. *)

(** The column emitted for a remote column found in the document. *)
Definition update_column (bq_col : BigQueryColumn) (yaml_col : DbtColumn)
    : DbtColumn :=
  {| col_name := bqc_name bq_col;
     col_data_type := Some (bqc_field_type bq_col);
     col_description :=
       if truthy_str (col_description yaml_col) then col_description yaml_col
       else or_str (bqc_description bq_col) "";
     col_meta := col_meta yaml_col;
     col_tests := col_tests yaml_col |}.

Definition merge_columns (bq_columns : list BigQueryColumn)
    (yaml_columns : list DbtColumn) (remove_deleted : bool) : list DbtColumn :=
  let bq_column_map := index_by bqc_name bq_columns in
  let yaml_column_map := index_by col_name yaml_columns in
  (* for bq_col in bq_columns: ... merged_columns.append(merged_col) *)
  let merged_columns :=
    foldl (λ merged_columns bq_col,
             let merged_col :=
               match yaml_column_map !! bqc_name bq_col with
               | Some yaml_col => update_column bq_col yaml_col
               | None => build_column_from_bigquery bq_col
               end in
             merged_columns ++ [merged_col])
          [] bq_columns in
  if remove_deleted then merged_columns
  else
    (* for yaml_col in yaml_columns: if yaml_col.name not in bq_column_map *)
    foldl (λ merged_columns yaml_col,
             match bq_column_map !! col_name yaml_col with
             | None => merged_columns ++ [yaml_col]
             | Some _ => merged_columns
             end)
          merged_columns yaml_columns.

Definition merge_table (bq_table : BigQueryTable) (yaml_table : option DbtTable)
    (remove_deleted_columns : bool) : DbtTable :=
  match yaml_table with
  | None => build_table_from_bigquery bq_table
  | Some yaml_table =>
      let merged_columns :=
        merge_columns (bqt_columns bq_table)
          (if truthy_list (tbl_columns yaml_table) then tbl_columns yaml_table
           else [])
          remove_deleted_columns in
      let description :=
        if truthy_str (tbl_description yaml_table)
        then tbl_description yaml_table
        else or_str (bqt_description bq_table) "" in
      {| tbl_name := tbl_name yaml_table;
         tbl_identifier := tbl_identifier yaml_table;
         tbl_description := description;
         tbl_columns := merged_columns;
         tbl_meta := tbl_meta yaml_table;
         tbl_tests := tbl_tests yaml_table |}
  end.

Definition merge_sources (bq_tables : list BigQueryTable)
    (yaml_source : option DbtSource) (source_name project_id dataset_id : string)
    (remove_deleted_tables remove_deleted_columns : bool) : DbtSource :=
  let yaml_source :=
    match yaml_source with
    | Some s => s
    | None =>
        {| src_name := source_name;
           src_database := Some project_id;
           src_schema_name := Some dataset_id;
           src_description := "";
           src_tables := [];
           src_meta := None |}
    end in
  let bq_table_map := index_by bqt_table_id bq_tables in
  let yaml_table_map := index_by tbl_name (src_tables yaml_source) in
  let merged_tables :=
    foldl (λ merged_tables bq_table,
             let yaml_table := yaml_table_map !! bqt_table_id bq_table in
             merged_tables
               ++ [merge_table bq_table yaml_table remove_deleted_columns])
          [] bq_tables in
  let merged_tables :=
    if remove_deleted_tables then merged_tables
    else
      foldl (λ merged_tables yaml_table,
               match bq_table_map !! tbl_name yaml_table with
               | None => merged_tables ++ [yaml_table]
               | Some _ => merged_tables
               end)
            merged_tables (src_tables yaml_source) in
  {| src_name := src_name yaml_source;
     src_database := Some (or_str (src_database yaml_source) project_id);
     src_schema_name := Some (or_str (src_schema_name yaml_source) dataset_id);
     src_description := src_description yaml_source;
     src_tables := merged_tables;
     src_meta := src_meta yaml_source |}.

(** The test of the selection loop of [merge_source_file]. *)
Definition source_matches (source_name dataset_id : string) (source : DbtSource)
    : bool :=
  String.eqb (src_name source) source_name
  || opt_str_eqb (src_schema_name source) dataset_id.

(** The selection loop: the state is the pair of the local variables
    [yaml_source] and [other_sources]. *)
Definition select_source (source_name dataset_id : string)
    (sources : list DbtSource) : option DbtSource * list DbtSource :=
  foldl (λ '(yaml_source, other_sources) source,
           if source_matches source_name dataset_id source
           then (Some source, other_sources)
           else (yaml_source, other_sources ++ [source]))
        (None, []) sources.

Definition merge_source_file (bq_tables : list BigQueryTable)
    (yaml_file : option DbtSourceFile)
    (source_name project_id dataset_id : string)
    (remove_deleted_tables remove_deleted_columns : bool) : DbtSourceFile :=
  let yaml_file :=
    match yaml_file with
    | Some f => f
    | None => {| sf_version := 2; sf_sources := [] |}
    end in
  let '(yaml_source, other_sources) :=
    select_source source_name dataset_id (sf_sources yaml_file) in
  let merged_source :=
    merge_sources bq_tables yaml_source source_name project_id dataset_id
      remove_deleted_tables remove_deleted_columns in
  let all_sources := other_sources ++ [merged_source] in
  {| sf_version := sf_version yaml_file; sf_sources := all_sources |}.

(** ** [io/yaml_handler.py]: dictionaries *)

(** [d[k] = v]: an existing key keeps its position, a new key goes last. *)
Fixpoint dict_set (k : string) (v : Yaml) (d : dict) : dict :=
  match d with
  | [] => [(k, v)]
  | (k', v') :: d' =>
      if String.eqb k' k then (k', v) :: d' else (k', v') :: dict_set k v d'
  end.

(** [d.get(k)]. *)
Fixpoint dict_get (k : string) (d : dict) : option Yaml :=
  match d with
  | [] => None
  | (k', v) :: d' => if String.eqb k' k then Some v else dict_get k d'
  end.

(** [d.get(k, dflt)]. *)
Definition dict_get_default (k : string) (dflt : Yaml) (d : dict) : Yaml :=
  default dflt (dict_get k d).

Definition dict_keys (d : dict) : list string := d.*1.

(** [if value: d[key] = value]. *)
Definition set_if_truthy {A} (truthy : A → bool) (to_yaml : A → Yaml)
    (key : string) (value : A) (d : dict) : dict :=
  if truthy value then dict_set key (to_yaml value) d else d.

(** The raw value of an optional field; [None] is YAML's null. *)
Definition opt_yaml {A} (to_yaml : A → Yaml) (o : option A) : Yaml :=
  match o with Some x => to_yaml x | None => YNull end.

(** ** [YamlHandler._serialize_source_file] *)

Definition serialize_column (column : DbtColumn) : dict :=
  let column_data := [("name", YStr (col_name column))] in
  let column_data :=
    set_if_truthy (truthy_opt truthy_str) (opt_yaml YStr) "data_type"
      (col_data_type column) column_data in
  let column_data :=
    set_if_truthy truthy_str YStr "description"
      (col_description column) column_data in
  let column_data :=
    set_if_truthy (truthy_opt truthy_list) (opt_yaml YMap) "meta"
      (col_meta column) column_data in
  let column_data :=
    set_if_truthy (truthy_opt truthy_list) (opt_yaml YList) "tests"
      (col_tests column) column_data in
  column_data.

Definition serialize_table (table : DbtTable) : dict :=
  let table_data := [("name", YStr (tbl_name table))] in
  let table_data :=
    set_if_truthy (truthy_opt truthy_str) (opt_yaml YStr) "identifier"
      (tbl_identifier table) table_data in
  let table_data :=
    set_if_truthy truthy_str YStr "description"
      (tbl_description table) table_data in
  let table_data :=
    set_if_truthy (truthy_opt truthy_list) (opt_yaml YMap) "meta"
      (tbl_meta table) table_data in
  let table_data :=
    set_if_truthy (truthy_opt truthy_list) (opt_yaml YList) "tests"
      (tbl_tests table) table_data in
  if truthy_list (tbl_columns table) then
    (* table_data["columns"] = []; then one append per column *)
    dict_set "columns"
      (YList (foldl (λ columns column,
                       columns ++ [YMap (serialize_column column)])
                    [] (tbl_columns table)))
      table_data
  else table_data.

Definition serialize_source (source : DbtSource) : dict :=
  let source_data := [("name", YStr (src_name source))] in
  let source_data :=
    set_if_truthy (truthy_opt truthy_str) (opt_yaml YStr) "database"
      (src_database source) source_data in
  let source_data :=
    set_if_truthy (truthy_opt truthy_str) (opt_yaml YStr) "schema"
      (src_schema_name source) source_data in
  let source_data :=
    set_if_truthy truthy_str YStr "description"
      (src_description source) source_data in
  let source_data :=
    set_if_truthy (truthy_opt truthy_list) (opt_yaml YMap) "meta"
      (src_meta source) source_data in
  dict_set "tables"
    (YList (foldl (λ tables table, tables ++ [YMap (serialize_table table)])
                  [] (src_tables source)))
    source_data.

Definition serialize_source_file (source_file : DbtSourceFile) : dict :=
  let data :=
    [("version", YInt (sf_version source_file)); ("sources", YList [])] in
  dict_set "sources"
    (YList (foldl (λ sources source, sources ++ [YMap (serialize_source source)])
                  [] (sf_sources source_file)))
    data.

(** The key orders of section 6 of the specification. *)
Definition file_keys : list string := ["version"; "sources"].
Definition source_keys : list string :=
  ["name"; "database"; "schema"; "description"; "meta"; "tables"].
Definition table_keys : list string :=
  ["name"; "identifier"; "description"; "meta"; "tests"; "columns"].
Definition column_keys : list string :=
  ["name"; "data_type"; "description"; "meta"; "tests"].

(** A null or empty raw value. *)
Definition yaml_truthy (v : Yaml) : bool :=
  match v with
  | YNull => false
  | YBool b => b
  | YInt z => negb (Z.eqb z 0)
  | YStr s => truthy_str s
  | YList l => truthy_list l
  | YMap d => truthy_list d
  end.

(** ** [YamlHandler._parse_source_file] *)

(** What a Python [for] loop enumerates: the items of a list, the characters
    of a string, the keys of a dictionary; anything else is not iterable. *)
Definition py_iter (v : Yaml) : option (list Yaml) :=
  match v with
  | YList l => Some l
  | YStr s => Some ((λ c, YStr (String c EmptyString)) <$> String.list_ascii_of_string s)
  | YMap d => Some (YStr <$> d.*1)
  | _ => None
  end.

(** The receiver of [.get] and of [[key]] has to be a dictionary. *)
Definition as_dict (v : Yaml) : option dict :=
  match v with YMap d => Some d | _ => None end.

(** Modelled from the spec: the field types of the record classes of
    [types/dbt.py], which are not part of the sources at hand. A raw value is
    accepted for a field when it has the field's type of section 3: a string
    for a name or a description, an integer for the version, a string, a
    mapping or a sequence (or nothing) for the optional fields. The check is
    strict: a value of another type is refused here, also where a record
    class would convert it (a version given as a numeric string) or take it
    (a null description). *)
Definition field_str (v : Yaml) : option string :=
  match v with YStr s => Some s | _ => None end.

Definition field_int (v : Yaml) : option Z :=
  match v with YInt z => Some z | _ => None end.

Definition field_opt {A} (get : Yaml → option A) (v : option Yaml)
    : option (option A) :=
  match v with
  | None | Some YNull => Some None
  | Some v => Some <$> get v
  end.

Definition field_dict (v : Yaml) : option dict :=
  match v with YMap d => Some d | _ => None end.

Definition field_list (v : Yaml) : option (list Yaml) :=
  match v with YList l => Some l | _ => None end.

Definition parse_column (column_data : Yaml) : option DbtColumn :=
  d ← as_dict column_data;
  name ← dict_get "name" d ≫= field_str;
  data_type ← field_opt field_str (dict_get "data_type" d);
  description ← field_str (dict_get_default "description" (YStr "") d);
  meta ← field_opt field_dict (dict_get "meta" d);
  tests ← field_opt field_list (dict_get "tests" d);
  Some {| col_name := name; col_data_type := data_type;
          col_description := description; col_meta := meta;
          col_tests := tests |}.

(** The columns of a table: [if table_data.get("columns"):] and the loop over
    [table_data["columns"]]; [columns] is what [.get] returned. *)
Definition parse_columns (columns : option Yaml) : option (list DbtColumn) :=
  if truthy_opt yaml_truthy columns then
    items ← columns ≫= py_iter;
    mapM parse_column items
  else Some [].

Definition parse_table (table_data : Yaml) : option DbtTable :=
  d ← as_dict table_data;
  columns ← parse_columns (dict_get "columns" d);
  name ← dict_get "name" d ≫= field_str;
  identifier ← field_opt field_str (dict_get "identifier" d);
  description ← field_str (dict_get_default "description" (YStr "") d);
  meta ← field_opt field_dict (dict_get "meta" d);
  tests ← field_opt field_list (dict_get "tests" d);
  Some {| tbl_name := name; tbl_identifier := identifier;
          tbl_description := description; tbl_columns := columns;
          tbl_meta := meta; tbl_tests := tests |}.

Definition parse_source (source_data : Yaml) : option DbtSource :=
  d ← as_dict source_data;
  items ← py_iter (dict_get_default "tables" (YList []) d);
  tables ← mapM parse_table items;
  name ← dict_get "name" d ≫= field_str;
  database ← field_opt field_str (dict_get "database" d);
  schema_name ← field_opt field_str (dict_get "schema" d);
  description ← field_str (dict_get_default "description" (YStr "") d);
  meta ← field_opt field_dict (dict_get "meta" d);
  Some {| src_name := name; src_database := database;
          src_schema_name := schema_name; src_description := description;
          src_tables := tables; src_meta := meta |}.

Definition parse_source_file (data : Yaml) : option DbtSourceFile :=
  d ← as_dict data;
  items ← py_iter (dict_get_default "sources" (YList []) d);
  sources ← mapM parse_source items;
  version ← field_int (dict_get_default "version" (YInt 2) d);
  Some {| sf_version := version; sf_sources := sources |}.

(** ** [cli.py]: the update path of [apply] *)

(** The loop that looks for the name of the source to update: the first
    source whose schema or name is the dataset, else the dataset itself. *)
Definition find_source_name (schema : string)
    (existing_file : option DbtSourceFile) : string :=
  match existing_file with
  | Some f =>
      match
        List.find (λ source, opt_str_eqb (src_schema_name source) schema
                             || String.eqb (src_name source) schema)
                  (sf_sources f)
      with
      | Some source => src_name source
      | None => schema
      end
  | None => schema
  end.

(** The keyword arguments [remove_deleted_tables] and
    [remove_deleted_columns] that [apply] hands to [merge_source_file]. *)
Definition apply_flags (sync_columns remove_deleted : bool) : bool * bool :=
  (remove_deleted, remove_deleted && sync_columns).

Definition apply_update (bq_tables : list BigQueryTable)
    (existing_file : option DbtSourceFile) (project_id schema : string)
    (sync_columns remove_deleted : bool) : DbtSourceFile :=
  let source_name := find_source_name schema existing_file in
  let '(remove_deleted_tables, remove_deleted_columns) :=
    apply_flags sync_columns remove_deleted in
  merge_source_file bq_tables existing_file source_name project_id schema
    remove_deleted_tables remove_deleted_columns.

(** ** Vocabulary of the statements *)

(** The column that the first loop of [merge_columns] emits for one remote
    column. *)
Definition merged_column (yaml_columns : list DbtColumn)
    (bq_col : BigQueryColumn) : DbtColumn :=
  match index_by col_name yaml_columns !! bqc_name bq_col with
  | Some yaml_col => update_column bq_col yaml_col
  | None => build_column_from_bigquery bq_col
  end.

(** The table that the first loop of [merge_sources] emits for one remote
    table. *)
Definition merged_table (yaml_tables : list DbtTable)
    (remove_deleted_columns : bool) (bq_table : BigQueryTable) : DbtTable :=
  merge_table bq_table (index_by tbl_name yaml_tables !! bqt_table_id bq_table)
    remove_deleted_columns.

(** Document-only entries: those whose name no remote entry has. *)
Definition doc_only_columns (bq_columns : list BigQueryColumn)
    (yaml_columns : list DbtColumn) : list DbtColumn :=
  filter (λ c, col_name c ∉ bqc_name <$> bq_columns) yaml_columns.

Definition doc_only_tables (bq_tables : list BigQueryTable)
    (yaml_tables : list DbtTable) : list DbtTable :=
  filter (λ t, tbl_name t ∉ bqt_table_id <$> bq_tables) yaml_tables.

(** The uniqueness invariants of a snapshot (section 3): table ids are
    pairwise distinct, and so are the column names of each table. *)
Definition snapshot_unique (bq_tables : list BigQueryTable) : Prop :=
  NoDup (bqt_table_id <$> bq_tables)
  ∧ Forall (λ t, NoDup (bqc_name <$> bqt_columns t)) bq_tables.

#[global] Instance snapshot_unique_dec bq : Decision (snapshot_unique bq).
Proof. unfold snapshot_unique. apply _. Defined.

(** The source that [merge_sources] starts from when the document has none. *)
Definition new_source (source_name project_id dataset_id : string) : DbtSource :=
  {| src_name := source_name;
     src_database := Some project_id;
     src_schema_name := Some dataset_id;
     src_description := "";
     src_tables := [];
     src_meta := None |}.

(** The sources that do not match the target: the name differs from the
    target source name and the schema name differs from the dataset id. *)
Definition other_sources (source_name dataset_id : string)
    (sources : list DbtSource) : list DbtSource :=
  filter (λ s, src_name s ≠ source_name ∧ src_schema_name s ≠ Some dataset_id)
         sources.

(** ** Concrete snapshots and documents *)

Definition bq_column (name field_type : string) (description : option string)
    : BigQueryColumn :=
  {| bqc_name := name; bqc_field_type := field_type;
     bqc_description := description |}.

(** Scenario A/B of the specification: table [t1] with columns
    [id : INT64] and [name : STRING]. *)
Definition bq_t1 : BigQueryTable :=
  {| bqt_table_id := "t1"; bqt_description := None;
     bqt_columns := [bq_column "id" "INT64" None;
                     bq_column "name" "STRING" None] |}.

(** Two sources of one document that both have the dataset [ds] as schema. *)
Definition src_a : DbtSource :=
  {| src_name := "a"; src_database := None; src_schema_name := Some "ds";
     src_description := "first"; src_tables := []; src_meta := None |}.

Definition src_b : DbtSource :=
  {| src_name := "b"; src_database := None; src_schema_name := Some "ds";
     src_description := "second"; src_tables := []; src_meta := None |}.

(** A source for another dataset. *)
Definition src_other : DbtSource :=
  {| src_name := "crm"; src_database := Some "p"; src_schema_name := Some "crm";
     src_description := "CRM export"; src_tables := []; src_meta := None |}.

Definition doc_two_matches : DbtSourceFile :=
  {| sf_version := 2; sf_sources := [src_a; src_b] |}.

(** A snapshot in which two tables share the id [t]. *)
Definition bq_dup_tables : list BigQueryTable :=
  [ {| bqt_table_id := "t"; bqt_description := None;
       bqt_columns := [bq_column "x" "INT64" None] |};
    {| bqt_table_id := "t"; bqt_description := None;
       bqt_columns := [bq_column "y" "INT64" None] |} ].

(** A snapshot whose only table has two columns named [x]. *)
Definition bq_dup_columns : list BigQueryTable :=
  [ {| bqt_table_id := "t"; bqt_description := None;
       bqt_columns := [bq_column "x" "INT64" (Some "a");
                       bq_column "x" "STRING" (Some "b")] |} ].

(** Scenario B: the document describes column [id] of [t1]. *)
Definition col_id_documented : DbtColumn :=
  {| col_name := "id"; col_data_type := Some "INTEGER";
     col_description := "Primary key";
     col_meta := Some [("pii", YBool false)];
     col_tests := Some [YStr "unique"] |}.

(** Scenario D: the document's [t1] carries the identifier [legacy_t1]. *)
Definition tbl_t1_legacy : DbtTable :=
  {| tbl_name := "t1"; tbl_identifier := Some "legacy_t1";
     tbl_description := "Orders"; tbl_columns := [col_id_documented];
     tbl_meta := Some [("owner", YStr "sales")]; tbl_tests := None |}.

(** A document table that names the remote id in its identifier only. *)
Definition tbl_alias : DbtTable :=
  {| tbl_name := "orders"; tbl_identifier := Some "t1";
     tbl_description := "Alias"; tbl_columns := []; tbl_meta := None;
     tbl_tests := None |}.

Definition src_ds (tables : list DbtTable) : DbtSource :=
  {| src_name := "ds"; src_database := Some "p"; src_schema_name := Some "ds";
     src_description := "Warehouse"; src_tables := tables;
     src_meta := Some [("team", YStr "data")] |}.

(** ** Vocabulary of the serialization statements *)

(** The entry that [if value: d[key] = value] leaves under [key]. *)
Definition emitted {A} (truthy : A → bool) (to_yaml : A → Yaml) (value : A)
    : option Yaml :=
  if truthy value then Some (to_yaml value) else None.

(** A null or empty raw value. *)
Definition is_placeholder (v : Yaml) : bool :=
  match v with
  | YNull | YStr EmptyString | YList [] | YMap [] => true
  | _ => false
  end.

(** No entry of [d] outside the keys [required] holds a null or empty
    value. *)
Definition placeholder_free (required : list string) (d : dict) : bool :=
  forallb (λ '(k, v), bool_decide (k ∈ required) || negb (is_placeholder v)) d.

(** The keys of [d] follow [order], each at most once. *)
Definition keys_follow (order : list string) (d : dict) : Prop :=
  sublist (dict_keys d) order.

(** An unset optional field leaves no entry under its key. *)
Definition omitted_if_unset {A} (field : option A) (key : string) (d : dict)
    : Prop :=
  field = None → (key ∉ dict_keys d) ∧ dict_get key d = None.

Definition column_shape (c : DbtColumn) : Prop :=
  let d := serialize_column c in
  keys_follow column_keys d
  ∧ omitted_if_unset (col_data_type c) "data_type" d
  ∧ omitted_if_unset (col_meta c) "meta" d
  ∧ omitted_if_unset (col_tests c) "tests" d
  ∧ placeholder_free ["name"] d = true.

Definition table_shape (t : DbtTable) : Prop :=
  let d := serialize_table t in
  keys_follow table_keys d
  ∧ omitted_if_unset (tbl_identifier t) "identifier" d
  ∧ omitted_if_unset (tbl_meta t) "meta" d
  ∧ omitted_if_unset (tbl_tests t) "tests" d
  ∧ placeholder_free ["name"] d = true
  ∧ dict_get "columns" d
    = emitted truthy_list (λ cs, YList ((YMap ∘ serialize_column) <$> cs))
        (tbl_columns t).

Definition source_shape (s : DbtSource) : Prop :=
  let d := serialize_source s in
  keys_follow source_keys d
  ∧ omitted_if_unset (src_database s) "database" d
  ∧ omitted_if_unset (src_schema_name s) "schema" d
  ∧ omitted_if_unset (src_meta s) "meta" d
  ∧ placeholder_free ["name"; "tables"] d = true
  ∧ dict_get "tables" d
    = Some (YList ((YMap ∘ serialize_table) <$> src_tables s)).

Definition file_shape (f : DbtSourceFile) : Prop :=
  serialize_source_file f
  = [("version", YInt (sf_version f));
     ("sources", YList ((YMap ∘ serialize_source) <$> sf_sources f))].

(** ** Vocabulary of the round trip *)

(** An optional field is in the domain of the round trip when it is unset or
    non-empty. *)
Definition unset_or_nonempty {A} (truthy : A → bool) (o : option A) : bool :=
  match o with Some x => truthy x | None => true end.

Definition column_in_domain (c : DbtColumn) : bool :=
  unset_or_nonempty truthy_str (col_data_type c)
  && unset_or_nonempty truthy_list (col_meta c)
  && unset_or_nonempty truthy_list (col_tests c).

Definition table_in_domain (t : DbtTable) : bool :=
  unset_or_nonempty truthy_str (tbl_identifier t)
  && unset_or_nonempty truthy_list (tbl_meta t)
  && unset_or_nonempty truthy_list (tbl_tests t)
  && forallb column_in_domain (tbl_columns t).

Definition source_in_domain (s : DbtSource) : bool :=
  unset_or_nonempty truthy_str (src_database s)
  && unset_or_nonempty truthy_str (src_schema_name s)
  && unset_or_nonempty truthy_list (src_meta s)
  && forallb table_in_domain (src_tables s).

Definition file_in_domain (f : DbtSourceFile) : bool :=
  forallb source_in_domain (sf_sources f).

(** An empty optional value comes back as unset. *)
Definition unset_empty {A} (truthy : A → bool) (o : option A) : option A :=
  if truthy_opt truthy o then o else None.

Definition unset_empty_column (c : DbtColumn) : DbtColumn :=
  {| col_name := col_name c;
     col_data_type := unset_empty truthy_str (col_data_type c);
     col_description := col_description c;
     col_meta := unset_empty truthy_list (col_meta c);
     col_tests := unset_empty truthy_list (col_tests c) |}.

Definition unset_empty_table (t : DbtTable) : DbtTable :=
  {| tbl_name := tbl_name t;
     tbl_identifier := unset_empty truthy_str (tbl_identifier t);
     tbl_description := tbl_description t;
     tbl_columns := unset_empty_column <$> tbl_columns t;
     tbl_meta := unset_empty truthy_list (tbl_meta t);
     tbl_tests := unset_empty truthy_list (tbl_tests t) |}.

Definition unset_empty_source (s : DbtSource) : DbtSource :=
  {| src_name := src_name s;
     src_database := unset_empty truthy_str (src_database s);
     src_schema_name := unset_empty truthy_str (src_schema_name s);
     src_description := src_description s;
     src_tables := unset_empty_table <$> src_tables s;
     src_meta := unset_empty truthy_list (src_meta s) |}.

Definition unset_empty_file (f : DbtSourceFile) : DbtSourceFile :=
  {| sf_version := sf_version f;
     sf_sources := unset_empty_source <$> sf_sources f |}.

(** A document with every optional field set and non-empty. *)
Definition doc_full : DbtSourceFile :=
  {| sf_version := 2;
     sf_sources := [src_ds [tbl_t1_legacy; tbl_alias]; src_other] |}.

(** A column whose optional fields are all present and empty. *)
Definition col_empty_fields : DbtColumn :=
  {| col_name := "c"; col_data_type := Some ""; col_description := "";
     col_meta := Some []; col_tests := Some [] |}.

(** ** [cli.py] and [io/yaml_handler.py]: from the data read to the data
    written *)

(** The test of the loop of [apply] that looks for the source to update. *)
Definition dataset_source (schema : string) (source : DbtSource) : bool :=
  opt_str_eqb (src_schema_name source) schema
  || String.eqb (src_name source) schema.

(** The update path of [apply] between the YAML library's [load] and [dump]:
    [read_source_file] parses the data loaded from the existing file (a
    failure of the parse is raised), the document is merged, and
    [write_source_file] hands the serialized document to [dump]. [apply]
    takes this path when the output file exists and the snapshot has a
    table; with an empty snapshot it returns before. *)
Definition apply_existing (bq_tables : list BigQueryTable) (data : Yaml)
    (project_id schema : string) (sync_columns remove_deleted : bool)
    : option dict :=
  existing_file ← parse_source_file data;
  Some (serialize_source_file
          (apply_update bq_tables (Some existing_file) project_id schema
             sync_columns remove_deleted)).

(** ** Uniqueness of names in a document *)

Definition table_unique (t : DbtTable) : Prop :=
  NoDup (col_name <$> tbl_columns t).

Definition source_unique (s : DbtSource) : Prop :=
  NoDup (tbl_name <$> src_tables s) ∧ Forall table_unique (src_tables s).

Definition file_unique (f : DbtSourceFile) : Prop :=
  NoDup (src_name <$> sf_sources f) ∧ Forall source_unique (sf_sources f).

#[global] Instance table_unique_dec t : Decision (table_unique t).
Proof. unfold table_unique. apply _. Defined.

#[global] Instance source_unique_dec s : Decision (source_unique s).
Proof. unfold source_unique. apply _. Defined.

#[global] Instance file_unique_dec f : Decision (file_unique f).
Proof. unfold file_unique. apply _. Defined.

(** ** Raw data restricted to what the document model holds *)

(** The entry of [d] under [k], unless it is absent, null or empty. *)
Definition kept_entry (d : dict) (k : string) : option (string * Yaml) :=
  v ← dict_get k d; if yaml_truthy v then Some (k, v) else None.

Definition keep_keys (keys : list string) (d : dict) : dict :=
  omap (kept_entry d) keys.

Definition name_entry (d : dict) : dict :=
  match dict_get "name" d with Some v => [("name", v)] | None => [] end.

(** The entries of a raw list, each restricted by [restrict]; what is not a
    list counts as the empty list. *)
Definition restrict_entries (restrict : dict → dict) (v : Yaml) : Yaml :=
  YList (match v with
         | YList items =>
             (λ x, match x with YMap d => YMap (restrict d) | _ => x end)
               <$> items
         | _ => []
         end).

Definition restrict_column (d : dict) : dict :=
  name_entry d ++ keep_keys ["data_type"; "description"; "meta"; "tests"] d.

Definition restrict_table (d : dict) : dict :=
  name_entry d
  ++ keep_keys ["identifier"; "description"; "meta"; "tests"] d
  ++ match dict_get "columns" d with
     | Some v =>
         if yaml_truthy v then [("columns", restrict_entries restrict_column v)]
         else []
     | None => []
     end.

Definition restrict_source (d : dict) : dict :=
  name_entry d
  ++ keep_keys ["database"; "schema"; "description"; "meta"] d
  ++ [("tables",
       restrict_entries restrict_table
         (dict_get_default "tables" (YList []) d))].

Definition restrict_file (d : dict) : dict :=
  [("version", dict_get_default "version" (YInt 2) d);
   ("sources",
    restrict_entries restrict_source
      (dict_get_default "sources" (YList []) d))].

(** A raw document with keys that the document model does not hold. *)
Definition raw_doc : dict :=
  [("sources",
    YList [YMap [("name", YStr "ds"); ("loader", YStr "fivetran");
                 ("schema", YStr "ds"); ("description", YStr "");
                 ("tables",
                  YList [YMap [("name", YStr "t1");
                               ("freshness", YNull);
                               ("columns",
                                YList [YMap [("quote", YBool true);
                                             ("name", YStr "id");
                                             ("tests", YList [])]])]])]]);
   ("version", YInt 2)].

(** A document with pairwise distinct source names in which at most one
    source has the dataset as its schema or as its name. *)
Definition one_source_per_dataset (schema : string) (f : DbtSourceFile)
    : Prop :=
  NoDup (src_name <$> sf_sources f)
  ∧ (length (filter (λ s, dataset_source schema s = true) (sf_sources f))
     ≤ 1)%nat.

#[global] Instance one_source_per_dataset_dec schema f :
  Decision (one_source_per_dataset schema f).
Proof. unfold one_source_per_dataset. apply _. Defined.

(** ** What a serialized entity holds *)

(** The entry written under [k]: none when there is no value to write. *)
Definition entry (k : string) (o : option Yaml) : dict :=
  match o with Some v => [(k, v)] | None => [] end.

(** The raw value written for a field: the field's value when it is not
    empty, nothing when it is empty. *)
Definition nonempty_str (s : string) : option Yaml :=
  match s with EmptyString => None | String _ _ => Some (YStr s) end.

Definition nonempty_dict (m : dict) : option Yaml :=
  match m with [] => None | _ :: _ => Some (YMap m) end.

Definition nonempty_list (l : list Yaml) : option Yaml :=
  match l with [] => None | _ :: _ => Some (YList l) end.

(** The whole dictionary of a column: its name, always, then each optional
    field that is set and not empty, under its key and with its value. *)
Definition column_written (c : DbtColumn) : Prop :=
  serialize_column c
  = entry "name" (Some (YStr (col_name c)))
    ++ entry "data_type" (col_data_type c ≫= nonempty_str)
    ++ entry "description" (nonempty_str (col_description c))
    ++ entry "meta" (col_meta c ≫= nonempty_dict)
    ++ entry "tests" (col_tests c ≫= nonempty_list).

(** The whole dictionary of a table; the columns are written when there is
    at least one, each as its own dictionary, in order. *)
Definition table_written (t : DbtTable) : Prop :=
  serialize_table t
  = entry "name" (Some (YStr (tbl_name t)))
    ++ entry "identifier" (tbl_identifier t ≫= nonempty_str)
    ++ entry "description" (nonempty_str (tbl_description t))
    ++ entry "meta" (tbl_meta t ≫= nonempty_dict)
    ++ entry "tests" (tbl_tests t ≫= nonempty_list)
    ++ entry "columns"
         (nonempty_list ((YMap ∘ serialize_column) <$> tbl_columns t)).

(** The whole dictionary of a source; the tables are always written. *)
Definition source_written (s : DbtSource) : Prop :=
  serialize_source s
  = entry "name" (Some (YStr (src_name s)))
    ++ entry "database" (src_database s ≫= nonempty_str)
    ++ entry "schema" (src_schema_name s ≫= nonempty_str)
    ++ entry "description" (nonempty_str (src_description s))
    ++ entry "meta" (src_meta s ≫= nonempty_dict)
    ++ entry "tables"
         (Some (YList ((YMap ∘ serialize_table) <$> src_tables s))).

(** ** Raw data with the field types of the document model *)

(** A key that has to hold a string. *)
Definition typed_str (v : option Yaml) : bool :=
  match v with Some (YStr _) => true | _ => false end.

(** A description: a string, or no entry. *)
Definition typed_description (v : option Yaml) : bool :=
  match v with None | Some (YStr _) => true | _ => false end.

(** An optional string, mapping or list: of that type, null, or no entry. *)
Definition typed_opt_str (v : option Yaml) : bool :=
  match v with None | Some YNull | Some (YStr _) => true | _ => false end.

Definition typed_opt_dict (v : option Yaml) : bool :=
  match v with None | Some YNull | Some (YMap _) => true | _ => false end.

Definition typed_opt_list (v : option Yaml) : bool :=
  match v with None | Some YNull | Some (YList _) => true | _ => false end.

(** The version: an integer, or no entry. *)
Definition typed_version (v : option Yaml) : bool :=
  match v with None | Some (YInt _) => true | _ => false end.

(** A list of entries that are all typed, or no entry. *)
Definition typed_entries (typed : Yaml → bool) (v : option Yaml) : bool :=
  match v with
  | None => true
  | Some (YList items) => forallb typed items
  | Some _ => false
  end.

Definition typed_column (x : Yaml) : bool :=
  match x with
  | YMap d =>
      typed_str (dict_get "name" d)
      && typed_opt_str (dict_get "data_type" d)
      && typed_description (dict_get "description" d)
      && typed_opt_dict (dict_get "meta" d)
      && typed_opt_list (dict_get "tests" d)
  | _ => false
  end.

(** The columns of a table are looked at only when the entry is neither
    absent, null nor empty. *)
Definition typed_table (x : Yaml) : bool :=
  match x with
  | YMap d =>
      typed_str (dict_get "name" d)
      && typed_opt_str (dict_get "identifier" d)
      && typed_description (dict_get "description" d)
      && typed_opt_dict (dict_get "meta" d)
      && typed_opt_list (dict_get "tests" d)
      && (if truthy_opt yaml_truthy (dict_get "columns" d)
          then typed_entries typed_column (dict_get "columns" d)
          else true)
  | _ => false
  end.

Definition typed_source (x : Yaml) : bool :=
  match x with
  | YMap d =>
      typed_str (dict_get "name" d)
      && typed_opt_str (dict_get "database" d)
      && typed_opt_str (dict_get "schema" d)
      && typed_description (dict_get "description" d)
      && typed_opt_dict (dict_get "meta" d)
      && typed_entries typed_table (dict_get "tables" d)
  | _ => false
  end.

Definition typed_file (d : dict) : bool :=
  typed_version (dict_get "version" d)
  && typed_entries typed_source (dict_get "sources" d).

(** * Properties *)

(** Decides a closed decidable proposition by evaluation. *)
Ltac by_eval := apply (bool_decide_unpack _); vm_compute; reflexivity.

(** ** Loops that append *)

Section loops.
Context {A B : Type}.

(** A loop that appends one item per element is a map. *)
Lemma foldl_snoc_fmap (f : A → B) (l : list A) (acc : list B) :
  foldl (λ acc x, acc ++ [f x]) acc l = acc ++ (f <$> l).
Proof.
  revert acc. induction l as [|x l IH]; intros acc; simpl.
  - by rewrite app_nil_r.
  - rewrite IH. by rewrite <- app_assoc.
Qed.

(** A loop that appends the elements missing from an index is a filter. *)
Lemma foldl_snoc_absent (key : A → string) (m : gmap string B)
    (l acc : list A) :
  foldl (λ acc x, match m !! key x with
                  | None => acc ++ [x]
                  | Some _ => acc
                  end) acc l
  = acc ++ filter (λ x, m !! key x = None) l.
Proof.
  revert acc. induction l as [|x l IH]; intros acc; simpl.
  - by rewrite app_nil_r.
  - rewrite IH. rewrite filter_cons.
    destruct (m !! key x) eqn:E; simpl; [done |].
    by rewrite <- app_assoc.
Qed.
End loops.

(** ** Indexes built by a dictionary comprehension *)

Section index.
Context {A : Type} (key : A → string).

Lemma foldl_insert_notin (l : list A) (m : gmap string A) (k : string) :
  k ∉ key <$> l →
  foldl (λ m x, <[key x := x]> m) m l !! k = m !! k.
Proof.
  revert m. induction l as [|x l IH]; intros m Hk; simpl; [done |].
  rewrite fmap_cons in Hk. apply not_elem_of_cons in Hk as [Hne Hk].
  rewrite IH; [| done]. by rewrite lookup_insert_ne.
Qed.

Lemma foldl_insert_in (l : list A) (m : gmap string A) (k : string) :
  k ∈ key <$> l →
  ∃ x, foldl (λ m x, <[key x := x]> m) m l !! k = Some x
       ∧ x ∈ l ∧ key x = k.
Proof.
  revert m. induction l as [|x l IH]; intros m Hk; simpl.
  - by apply elem_of_nil in Hk.
  - destruct (decide (k ∈ key <$> l)) as [Hin | Hout].
    + destruct (IH (<[key x := x]> m) Hin) as (y & Hy & Hyl & Hyk).
      exists y. split_and!; [done | by right | done].
    + rewrite fmap_cons in Hk. apply elem_of_cons in Hk as [-> | Hk]; [| done].
      exists x. rewrite foldl_insert_notin; [| done].
      rewrite lookup_insert_eq. split_and!; [done | by left | done].
Qed.

(** A key that no element has is absent from the index, and conversely. *)
Lemma index_by_None (l : list A) (k : string) :
  index_by key l !! k = None ↔ k ∉ key <$> l.
Proof.
  unfold index_by. split.
  - intros Hnone Hin.
    destruct (foldl_insert_in l ∅ k Hin) as (x & Hx & _). congruence.
  - intros Hout. by rewrite foldl_insert_notin.
Qed.

(** What the index returns is an element of the list that has the key. *)
Lemma index_by_Some (l : list A) (k : string) (x : A) :
  index_by key l !! k = Some x → x ∈ l ∧ key x = k.
Proof.
  intros Hx. destruct (decide (k ∈ key <$> l)) as [Hin | Hout].
  - destruct (foldl_insert_in l ∅ k Hin) as (y & Hy & Hyl & Hyk).
    unfold index_by in Hx. by simplify_eq.
  - apply index_by_None in Hout. congruence.
Qed.

Lemma index_by_is_Some (l : list A) (k : string) :
  k ∈ key <$> l → is_Some (index_by key l !! k).
Proof.
  intros Hin. destruct (foldl_insert_in l ∅ k Hin) as (x & Hx & _).
  by exists x.
Qed.

(** Elements after the last one with key [k] do not change its entry. *)
Lemma index_by_app_notin (l1 l2 : list A) (k : string) :
  k ∉ key <$> l2 →
  index_by key (l1 ++ l2) !! k = index_by key l1 !! k.
Proof.
  intros Hk. unfold index_by. rewrite foldl_app.
  by apply foldl_insert_notin.
Qed.

(** The last element with a given key is the one indexed. *)
Lemma index_by_last (l1 l2 : list A) (x : A) :
  key x ∉ key <$> l2 →
  index_by key (l1 ++ x :: l2) !! key x = Some x.
Proof.
  intros Hk. unfold index_by. rewrite foldl_app. simpl.
  rewrite foldl_insert_notin; [| done]. apply lookup_insert_eq.
Qed.

(** The index returns the last element that has the key. *)
Lemma index_by_last_filter (l : list A) (k : string) :
  index_by key l !! k = last (filter (λ x, key x = k) l).
Proof.
  induction l as [|a l IH] using rev_ind; [done |].
  unfold index_by in *. rewrite foldl_app, filter_app. simpl.
  rewrite filter_cons, filter_nil, lookup_insert.
  destruct (decide (key a = k)) as [Ha | Ha].
  - by rewrite last_snoc.
  - by rewrite app_nil_r.
Qed.

(** With distinct keys, each element is found under its own key. *)
Lemma index_by_NoDup (l : list A) (x : A) :
  NoDup (key <$> l) → x ∈ l → index_by key l !! key x = Some x.
Proof.
  intros Hnd Hx. apply list_elem_of_split in Hx as (l1 & l2 & ->).
  apply index_by_last.
  rewrite fmap_app, fmap_cons in Hnd.
  apply NoDup_app in Hnd as (_ & _ & Hnd).
  by apply NoDup_cons in Hnd as [? _].
Qed.
End index.

(** ** Remote-driven entries followed by document-only entries

    Both [merge_columns] and [merge_sources] produce one entry per remote
    entry, under the remote entry's key, followed by entries whose key no
    remote entry has. *)

Section keyed.
Context {R D : Type} (rkey : R → string) (dkey : D → string) (f : R → D).
Hypothesis f_key : ∀ r, dkey (f r) = rkey r.

Lemma filter_none (P : D → Prop) `{!∀ x, Decision (P x)} (l : list D) :
  (∀ x, x ∈ l → ¬ P x) → filter P l = [].
Proof.
  induction l as [|x l IH]; intros Hl; [done |].
  rewrite filter_cons_False; [| apply Hl; by left].
  apply IH. intros y Hy. apply Hl. by right.
Qed.

(** No remote-driven entry is document-only. *)
Lemma doc_only_of_remote (rs : list R) :
  filter (λ d, dkey d ∉ rkey <$> rs) (f <$> rs) = [].
Proof.
  apply filter_none. intros d Hd Hout.
  apply list_elem_of_fmap in Hd as (r & -> & Hr).
  apply Hout. rewrite f_key. by apply list_elem_of_fmap_2.
Qed.

(** In the merged list the entry under a remote key is the remote-driven
    one, as long as remote keys are distinct. *)
Lemma index_by_merged (rs : list R) (tail : list D) (r : R) :
  NoDup (rkey <$> rs) → r ∈ rs →
  (∀ d, d ∈ tail → dkey d ∉ rkey <$> rs) →
  index_by dkey ((f <$> rs) ++ tail) !! rkey r = Some (f r).
Proof.
  intros Hnd Hr Htail.
  rewrite index_by_app_notin.
  - rewrite <- f_key. apply index_by_NoDup.
    + rewrite <- list_fmap_compose.
      assert ((dkey ∘ f) <$> rs = rkey <$> rs) as ->; [| done].
      apply list_fmap_ext. intros i x _. apply f_key.
    + by apply list_elem_of_fmap_2.
  - intros Hin. apply list_elem_of_fmap in Hin as (d & Hd & Hdt).
    apply (Htail d Hdt). rewrite <- Hd. by apply list_elem_of_fmap_2.
Qed.

(** The document-only entries of the merged list are those of the
    document. *)
Lemma doc_only_of_merged (rs : list R) (ys : list D) :
  filter (λ d, dkey d ∉ rkey <$> rs)
         ((f <$> rs) ++ filter (λ d, dkey d ∉ rkey <$> rs) ys)
  = filter (λ d, dkey d ∉ rkey <$> rs) ys.
Proof.
  rewrite filter_app, doc_only_of_remote. simpl.
  by apply list_filter_filter_l.
Qed.
End keyed.

(** ** Column reconciliation *)

Section columns.
Implicit Types (bq : list BigQueryColumn) (ys : list DbtColumn).

(** The closed form of [merge_columns]: one column per remote column, then
    the document-only columns unless they are pruned. *)
Lemma merge_columns_eq bq ys (remove_deleted : bool) :
  merge_columns bq ys remove_deleted
  = (merged_column ys <$> bq)
    ++ (if remove_deleted then [] else doc_only_columns bq ys).
Proof.
  unfold merge_columns.
  set (loop := foldl _ [] bq).
  assert (loop = merged_column ys <$> bq) as ->
    by apply (foldl_snoc_fmap (merged_column ys) bq []).
  destruct remove_deleted; [by rewrite app_nil_r |].
  rewrite foldl_snoc_absent. f_equal.
  apply list_filter_iff. intros c. apply index_by_None.
Qed.

Lemma merged_column_name ys c : col_name (merged_column ys c) = bqc_name c.
Proof. unfold merged_column. by destruct (_ !! _). Qed.

Lemma merged_column_names bq ys :
  col_name <$> (merged_column ys <$> bq) = bqc_name <$> bq.
Proof.
  rewrite <- list_fmap_compose. apply list_fmap_ext.
  intros i c _. apply merged_column_name.
Qed.

(** Updating a merged column against the same remote column changes
    nothing. *)
Lemma update_merged_column ys c :
  update_column c (merged_column ys c) = merged_column ys c.
Proof.
  unfold merged_column, update_column, build_column_from_bigquery, or_str.
  destruct (_ !! _) as [y|]; simpl.
  - destruct (col_description y) as [|a d]; simpl; [| done].
    by destruct (bqc_description c) as [[|a d]|].
  - by destruct (bqc_description c) as [[|a d]|].
Qed.

(** [merge_columns] is idempotent for remote columns with distinct names. *)
Lemma merge_columns_idem bq ys (remove_deleted : bool) :
  NoDup (bqc_name <$> bq) →
  merge_columns bq (merge_columns bq ys remove_deleted) remove_deleted
  = merge_columns bq ys remove_deleted.
Proof.
  intros Hnd. rewrite (merge_columns_eq bq (merge_columns _ _ _)).
  rewrite !merge_columns_eq. f_equal.
  - apply list_fmap_ext. intros i c Hc.
    apply list_elem_of_lookup_2 in Hc.
    unfold merged_column at 1.
    rewrite (index_by_merged bqc_name col_name (merged_column ys)
               (merged_column_name ys) bq _ c Hnd Hc).
    + apply update_merged_column.
    + intros d Hd. destruct remove_deleted; [by apply elem_of_nil in Hd |].
      by apply list_elem_of_filter in Hd as [? _].
  - destruct remove_deleted; [done |].
    apply (doc_only_of_merged bqc_name col_name (merged_column ys)
             (merged_column_name ys)).
Qed.

(** Against an empty document every column is built from the remote one. *)
Lemma merge_columns_nil bq (remove_deleted : bool) :
  merge_columns bq [] remove_deleted = build_column_from_bigquery <$> bq.
Proof.
  rewrite merge_columns_eq. unfold doc_only_columns. rewrite filter_nil.
  by destruct remove_deleted; rewrite app_nil_r.
Qed.
End columns.

(** ** Table and source reconciliation *)

Section tables.
Implicit Types (bq : list BigQueryTable) (ys : list DbtTable).
#[local] Arguments or_str : simpl never.

Lemma or_empty {A} (l : list A) : (if truthy_list l then l else []) = l.
Proof. by destruct l. Qed.

Lemma or_str_idem (a : option string) (b : string) :
  or_str (Some (or_str a b)) b = or_str a b.
Proof.
  unfold or_str. destruct a as [[|c a]|]; simpl; by destruct b.
Qed.

Lemma merged_table_name ys (rc : bool) (b : BigQueryTable) :
  tbl_name (merged_table ys rc b) = bqt_table_id b.
Proof.
  unfold merged_table. destruct (_ !! _) as [y|] eqn:E; simpl; [| done].
  by apply index_by_Some in E as [_ ?].
Qed.

(** [merge_table] is idempotent for remote columns with distinct names. *)
Lemma merge_table_idem (b : BigQueryTable) (y : option DbtTable) (rc : bool) :
  NoDup (bqc_name <$> bqt_columns b) →
  merge_table b (Some (merge_table b y rc)) rc = merge_table b y rc.
Proof.
  intros Hnd. destruct y as [y|]; unfold merge_table; simpl.
  - rewrite !or_empty, merge_columns_idem by done. f_equal.
    destruct (tbl_description y) as [|c d]; simpl; [| done].
    unfold or_str. by destruct (bqt_description b) as [[|c d]|].
  - rewrite or_empty. unfold build_table_from_bigquery. f_equal.
    + by destruct (truthy_str _).
    + rewrite <- (merge_columns_nil _ rc). by apply merge_columns_idem.
Qed.

(** The closed form of [merge_sources]. *)
Lemma merge_sources_eq bq (o : option DbtSource)
    (source_name project_id dataset_id : string) (rt rc : bool) :
  merge_sources bq o source_name project_id dataset_id rt rc
  = let s := default (new_source source_name project_id dataset_id) o in
    {| src_name := src_name s;
       src_database := Some (or_str (src_database s) project_id);
       src_schema_name := Some (or_str (src_schema_name s) dataset_id);
       src_description := src_description s;
       src_tables :=
         (merged_table (src_tables s) rc <$> bq)
         ++ (if rt then [] else doc_only_tables bq (src_tables s));
       src_meta := src_meta s |}.
Proof.
  unfold merge_sources.
  replace (match o with Some s => s | None => _ end)
    with (default (new_source source_name project_id dataset_id) o)
    by by destruct o.
  set (s := default _ o). simpl. f_equal.
  set (loop := foldl _ [] bq).
  assert (loop = merged_table (src_tables s) rc <$> bq) as ->
    by apply (foldl_snoc_fmap (merged_table (src_tables s) rc) bq []).
  destruct rt; [by rewrite app_nil_r |].
  rewrite foldl_snoc_absent. f_equal.
  apply list_filter_iff. intros t. apply index_by_None.
Qed.

(** [merge_sources] is idempotent on a snapshot with distinct table ids and
    distinct column names. *)
Lemma merge_sources_idem bq (o : option DbtSource)
    (source_name project_id dataset_id : string) (rt rc : bool) :
  snapshot_unique bq →
  merge_sources bq
    (Some (merge_sources bq o source_name project_id dataset_id rt rc))
    source_name project_id dataset_id rt rc
  = merge_sources bq o source_name project_id dataset_id rt rc.
Proof.
  intros [Hids Hcols].
  rewrite (merge_sources_eq bq (Some _)). rewrite merge_sources_eq.
  set (s := default _ o). simpl. rewrite !or_str_idem. f_equal. f_equal.
  - apply list_fmap_ext. intros i b Hb.
    apply list_elem_of_lookup_2 in Hb.
    unfold merged_table at 1.
    rewrite (index_by_merged bqt_table_id tbl_name
               (merged_table (src_tables s) rc)
               (merged_table_name (src_tables s) rc) bq _ b Hids Hb).
    + apply merge_table_idem. by eapply Forall_forall in Hcols.
    + intros d Hd. destruct rt; [by apply elem_of_nil in Hd |].
      by apply list_elem_of_filter in Hd as [? _].
  - destruct rt; [done |].
    apply (doc_only_of_merged bqt_table_id tbl_name
             (merged_table (src_tables s) rc)
             (merged_table_name (src_tables s) rc)).
Qed.
End tables.

(** ** Document reconciliation *)

Section document.
Implicit Types (sources : list DbtSource).

(** The selection loop keeps the last matching source and, in order, the
    sources that do not match. *)
Lemma select_source_eq (source_name dataset_id : string) sources :
  select_source source_name dataset_id sources
  = (last (filter (λ s, source_matches source_name dataset_id s = true)
                  sources),
     filter (λ s, source_matches source_name dataset_id s ≠ true) sources).
Proof.
  unfold select_source.
  induction sources as [|s sources IH] using rev_ind; [done |].
  rewrite foldl_app, IH, !filter_app. simpl. rewrite !filter_cons. simpl.
  destruct (source_matches source_name dataset_id s) eqn:E.
  - rewrite decide_True, decide_False by (try done; by intros []).
    by rewrite !filter_nil, last_snoc, app_nil_r.
  - rewrite decide_False, decide_True by done.
    by rewrite !filter_nil, app_nil_r.
Qed.

(** The merged source matches the target it was merged for. *)
Lemma merged_source_matches (bq : list BigQueryTable) (o : option DbtSource)
    (source_name project_id dataset_id : string) (rt rc : bool) :
  from_option (λ s, source_matches source_name dataset_id s = true) True o →
  source_matches source_name dataset_id
    (merge_sources bq o source_name project_id dataset_id rt rc) = true.
Proof.
  intros Ho. rewrite merge_sources_eq. unfold source_matches; simpl.
  destruct o as [s|]; simpl in *.
  - unfold source_matches in Ho.
    apply orb_true_iff in Ho as [-> | Hs]; [done |].
    apply orb_true_iff. right.
    destruct (src_schema_name s) as [n|]; simpl in *; [| done].
    apply String.eqb_eq in Hs as ->. unfold or_str.
    destruct (truthy_str dataset_id); apply String.eqb_refl.
  - by rewrite String.eqb_refl.
Qed.

(** The closed form of [merge_source_file]. *)
Lemma merge_source_file_eq (bq : list BigQueryTable)
    (o : option DbtSourceFile) (source_name project_id dataset_id : string)
    (rt rc : bool) :
  merge_source_file bq o source_name project_id dataset_id rt rc
  = let f := default {| sf_version := 2; sf_sources := [] |} o in
    let matching :=
      filter (λ s, source_matches source_name dataset_id s = true)
             (sf_sources f) in
    let others :=
      filter (λ s, source_matches source_name dataset_id s ≠ true)
             (sf_sources f) in
    {| sf_version := sf_version f;
       sf_sources :=
         others ++ [merge_sources bq (last matching) source_name project_id
                      dataset_id rt rc] |}.
Proof.
  unfold merge_source_file.
  replace (match o with Some f => f | None => _ end)
    with (default {| sf_version := 2; sf_sources := [] |} o)
    by by destruct o.
  by rewrite select_source_eq.
Qed.
End document.

Lemma source_matches_false (source_name dataset_id : string) (s : DbtSource) :
  source_matches source_name dataset_id s ≠ true
  ↔ src_name s ≠ source_name ∧ src_schema_name s ≠ Some dataset_id.
Proof.
  unfold source_matches, opt_str_eqb.
  rewrite not_true_iff_false, orb_false_iff.
  rewrite <- !not_true_iff_false, String.eqb_eq.
  destruct (src_schema_name s) as [n|].
  - rewrite String.eqb_eq. split; intros [? Hn]; (split; [done |]).
    + intros [= ->]. by apply Hn.
    + intros ->. by apply Hn.
  - split; intros [? _]; by split.
Qed.

Lemma or_str_empty (a : option string) : or_str a "" = default "" a.
Proof. unfold or_str. by destruct a as [[|c a]|]. Qed.

(** * Properties of the specification *)

(** C1. Where two sources of the document match the target, the selection
    loop of [merge_source_file] keeps the one met last: for the document
    [a; b], both with schema [ds], and the target name [a] that
    [find_source_name] picks by its first-match rule, the merge input is [b],
    the output holds the merged [b] alone, and [a] (the first match) is in
    the output neither merged nor unchanged. *)
Theorem merge_source_file_keeps_last_match :
  let out :=
    merge_source_file [bq_t1] (Some doc_two_matches) "a" "p" "ds" false false in
  find_source_name "ds" (Some doc_two_matches) = "a"
  ∧ sf_sources out
    = [merge_sources [bq_t1] (Some src_b) "a" "p" "ds" false false]
  ∧ src_name <$> sf_sources out = ["b"]
  ∧ src_description <$> sf_sources out = ["second"].
Proof. vm_compute. done. Qed.

(** C2, as stated, fails: on a snapshot in which two tables share an id, and
    on one in which two columns of a table share a name, a second
    reconciliation changes the document produced by the first. *)
Lemma merge_source_file_drifts_on_duplicates :
  (let once := merge_source_file bq_dup_tables None "s" "p" "ds" false false in
   merge_source_file bq_dup_tables (Some once) "s" "p" "ds" false false ≠ once)
  ∧ (let once :=
       merge_source_file bq_dup_columns None "s" "p" "ds" false false in
     merge_source_file bq_dup_columns (Some once) "s" "p" "ds" false false
     ≠ once).
Proof. split; vm_compute; intros H; discriminate H. Qed.

(** C2, amended. Reconciliation is idempotent on every snapshot whose table
    ids are pairwise distinct and whose tables have pairwise distinct column
    names: for every optional prior document and any flag values, a second
    [merge_source_file] with the same arguments, applied to the output of the
    first, returns that output. *)
Theorem merge_source_file_idempotent (bq : list BigQueryTable)
    (o : option DbtSourceFile) (source_name project_id dataset_id : string)
    (rt rc : bool) :
  snapshot_unique bq →
  merge_source_file bq
    (Some (merge_source_file bq o source_name project_id dataset_id rt rc))
    source_name project_id dataset_id rt rc
  = merge_source_file bq o source_name project_id dataset_id rt rc.
Proof.
  intros Hbq. rewrite (merge_source_file_eq bq (Some _)).
  rewrite merge_source_file_eq.
  set (f := default _ o). cbn [default sf_version sf_sources]. cbv zeta.
  set (others := filter (λ s, source_matches _ _ s ≠ true) (sf_sources f)).
  set (merged := merge_sources _ _ _ _ _ _ _).
  assert (source_matches source_name dataset_id merged = true) as Hm.
  { apply merged_source_matches.
    destruct (last _) as [s|] eqn:E; simpl; [| done].
    apply last_Some_elem_of in E.
    by apply list_elem_of_filter in E as [? _]. }
  cbn [default from_option id sf_version sf_sources].
  rewrite !filter_app, !filter_cons, !filter_nil.
  rewrite decide_False by (intros Hn; by apply Hn).
  rewrite decide_True by done.
  assert (filter (λ s, source_matches source_name dataset_id s = true) others
          = []) as ->.
  { apply filter_none. intros s Hs Hs'.
    by apply list_elem_of_filter in Hs as [Hs _]. }
  assert (filter (λ s, source_matches source_name dataset_id s ≠ true) others
          = others) as ->
    by by apply list_filter_filter_l.
  simpl. rewrite app_nil_r. f_equal. f_equal. f_equal.
  by apply merge_sources_idem.
Qed.

Lemma merge_source_file_idempotent_witness :
  snapshot_unique [bq_t1]
  ∧ merge_source_file [bq_t1]
      (Some (merge_source_file [bq_t1] (Some doc_two_matches)
               "a" "p" "ds" true false))
      "a" "p" "ds" true false
    = merge_source_file [bq_t1] (Some doc_two_matches) "a" "p" "ds" true false.
Proof.
  split; [by_eval |].
  apply (merge_source_file_idempotent [bq_t1]). by_eval.
Defined.

(** C3. In [merge_columns], the column emitted for a remote column whose
    name some document column has (the existing column is the last document
    column of that name, the only one when names are distinct) takes its name
    and data type from the remote column, keeps the existing description if
    it is non-empty and otherwise takes the remote description if present,
    else the empty string, and carries the existing meta and tests. *)
Theorem merge_columns_matched (bq : list BigQueryColumn) (ys : list DbtColumn)
    (remove_deleted : bool) (i : nat) (c : BigQueryColumn) :
  bq !! i = Some c →
  bqc_name c ∈ col_name <$> ys →
  ∃ y, last (filter (λ y, col_name y = bqc_name c) ys) = Some y
       ∧ merge_columns bq ys remove_deleted !! i
         = Some {| col_name := bqc_name c;
                   col_data_type := Some (bqc_field_type c);
                   col_description :=
                     if truthy_str (col_description y) then col_description y
                     else default "" (bqc_description c);
                   col_meta := col_meta y;
                   col_tests := col_tests y |}.
Proof.
  intros Hc Hin.
  destruct (index_by_is_Some col_name ys _ Hin) as [y Hy].
  exists y. split; [by rewrite <- index_by_last_filter |].
  rewrite merge_columns_eq, lookup_app_l
    by (rewrite length_fmap; by eapply lookup_lt_Some).
  rewrite list_lookup_fmap, Hc. simpl.
  unfold merged_column. rewrite Hy. unfold update_column.
  by rewrite or_str_empty.
Qed.

Lemma merge_columns_matched_witness :
  ∃ y, last (filter (λ y, col_name y = "id") [col_id_documented]) = Some y
       ∧ merge_columns (bqt_columns bq_t1) [col_id_documented] false !! 0%nat
         = Some {| col_name := "id";
                   col_data_type := Some "INT64";
                   col_description :=
                     if truthy_str (col_description y) then col_description y
                     else default "" None;
                   col_meta := col_meta y;
                   col_tests := col_tests y |}.
Proof.
  apply (merge_columns_matched (bqt_columns bq_t1) [col_id_documented] false
           0 (bq_column "id" "INT64" None)).
  - reflexivity.
  - by_eval.
Defined.

(** C4. [merge_columns] and [merge_sources] list one entry per remote entry
    first, in the snapshot's order and under the remote names; without
    pruning the document-only entries follow, in their document order and
    as they were; with pruning every entry of the output bears a remote
    name. *)
Theorem merge_order_and_pruning :
  (∀ (bq : list BigQueryColumn) (ys : list DbtColumn) (remove_deleted : bool),
     merge_columns bq ys remove_deleted
     = (merged_column ys <$> bq)
       ++ (if remove_deleted then [] else doc_only_columns bq ys)
     ∧ col_name <$> (merged_column ys <$> bq) = bqc_name <$> bq)
  ∧ (∀ (bq : list BigQueryColumn) (ys : list DbtColumn),
       Forall (λ c, col_name c ∈ bqc_name <$> bq) (merge_columns bq ys true))
  ∧ (∀ (bq : list BigQueryTable) (o : option DbtSource)
       (source_name project_id dataset_id : string) (rt rc : bool),
       let ys :=
         src_tables (default (new_source source_name project_id dataset_id) o)
       in
       src_tables
         (merge_sources bq o source_name project_id dataset_id rt rc)
       = (merged_table ys rc <$> bq)
         ++ (if rt then [] else doc_only_tables bq ys)
       ∧ tbl_name <$> (merged_table ys rc <$> bq) = bqt_table_id <$> bq)
  ∧ (∀ (bq : list BigQueryTable) (o : option DbtSource)
       (source_name project_id dataset_id : string) (rc : bool),
       Forall (λ t, tbl_name t ∈ bqt_table_id <$> bq)
         (src_tables
            (merge_sources bq o source_name project_id dataset_id true rc))).
Proof.
  assert (∀ (bq : list BigQueryTable) ys rc,
            tbl_name <$> (merged_table ys rc <$> bq) = bqt_table_id <$> bq)
    as Hnames.
  { intros bq ys rc. rewrite <- list_fmap_compose. apply list_fmap_ext.
    intros i b _. apply merged_table_name. }
  split_and!.
  - intros bq ys rd. split; [apply merge_columns_eq | apply merged_column_names].
  - intros bq ys. rewrite merge_columns_eq, app_nil_r.
    apply Forall_forall. intros c Hc. apply (list_elem_of_fmap_2 col_name) in Hc.
    by rewrite merged_column_names in Hc.
  - intros bq o n p d rt rc. rewrite merge_sources_eq. by split.
  - intros bq o n p d rc. rewrite merge_sources_eq. simpl. rewrite app_nil_r.
    apply Forall_forall. intros t Ht. apply (list_elem_of_fmap_2 tbl_name) in Ht.
    by rewrite Hnames in Ht.
Qed.

(** The table emitted at position [i] of [merge_sources] is the merge of the
    [i]-th remote table with the last document table that bears its id as
    name, if there is one. *)
Lemma merge_sources_lookup (bq : list BigQueryTable) (s : DbtSource)
    (source_name project_id dataset_id : string) (rt rc : bool)
    (i : nat) (b : BigQueryTable) :
  bq !! i = Some b →
  src_tables (merge_sources bq (Some s) source_name project_id dataset_id rt rc)
    !! i
  = Some (merge_table b
            (last (filter (λ y, tbl_name y = bqt_table_id b) (src_tables s)))
            rc).
Proof.
  intros Hb. rewrite merge_sources_eq. simpl.
  rewrite lookup_app_l by (rewrite length_fmap; by eapply lookup_lt_Some).
  rewrite list_lookup_fmap, Hb. simpl. unfold merged_table.
  by rewrite index_by_last_filter.
Qed.



(** C6. [merge_sources] matches a remote table with a document table by the
    document table's name alone: the table emitted for the remote table [b]
    is the merge with the last document table whose name is [b]'s id,
    whatever its identifier, and it has that table's name and identifier;
    when no document table has that name the table is built from [b], also
    when some identifier equals the id. *)
Theorem merge_sources_matches_by_name (bq : list BigQueryTable)
    (s : DbtSource) (source_name project_id dataset_id : string)
    (rt rc : bool) (i : nat) (b : BigQueryTable) :
  bq !! i = Some b →
  ∃ m, src_tables
         (merge_sources bq (Some s) source_name project_id dataset_id rt rc)
         !! i = Some m
       ∧ match
           last (filter (λ y, tbl_name y = bqt_table_id b) (src_tables s))
         with
         | Some y =>
             tbl_name y = bqt_table_id b
             ∧ m = merge_table b (Some y) rc
             ∧ tbl_name m = tbl_name y
             ∧ tbl_identifier m = tbl_identifier y
         | None => m = build_table_from_bigquery b
         end.
Proof.
  intros Hb. eexists. split; [by apply merge_sources_lookup |].
  destruct (last _) as [y|] eqn:E; [| done].
  apply last_Some_elem_of, list_elem_of_filter in E as [E _].
  by split_and!.
Qed.

Lemma merge_sources_matches_by_name_witness :
  ∃ m, src_tables
         (merge_sources [bq_t1] (Some (src_ds [tbl_t1_legacy; tbl_alias]))
            "ds" "p" "ds" false false)
         !! 0%nat = Some m
       ∧ match
           last (filter (λ y, tbl_name y = "t1") [tbl_t1_legacy; tbl_alias])
         with
         | Some y =>
             tbl_name y = "t1"
             ∧ m = merge_table bq_t1 (Some y) false
             ∧ tbl_name m = tbl_name y
             ∧ tbl_identifier m = tbl_identifier y
         | None => m = build_table_from_bigquery bq_t1
         end.
Proof.
  apply (merge_sources_matches_by_name [bq_t1]
           (src_ds [tbl_t1_legacy; tbl_alias]) "ds" "p" "ds" false false
           0 bq_t1).
  reflexivity.
Defined.

(** Scenario D and its converse: [t1] with identifier [legacy_t1] is matched
    and keeps both name and identifier; a table named [orders] whose
    identifier is [t1] is not matched, so [t1] is built anew and [orders]
    stays as a document-only table. *)
Example identifier_is_not_a_key :
  (let out := src_tables (merge_sources [bq_t1] (Some (src_ds [tbl_t1_legacy]))
                            "ds" "p" "ds" false false) in
   (λ t, (tbl_name t, tbl_identifier t)) <$> out = [("t1", Some "legacy_t1")])
  ∧ (let out := src_tables (merge_sources [bq_t1] (Some (src_ds [tbl_alias]))
                              "ds" "p" "ds" false false) in
     out = [build_table_from_bigquery bq_t1; tbl_alias]).
Proof. split; vm_compute; reflexivity. Qed.

(** C7. The output of [merge_source_file] lists the sources that do not match
    the target (name other than the target name and schema other than the
    dataset id) as they were and in their order, then the one merged source;
    its version is that of the existing document, and 2 without one. *)
Theorem merge_source_file_frame (bq : list BigQueryTable)
    (o : option DbtSourceFile) (source_name project_id dataset_id : string)
    (rt rc : bool) :
  let sources := default [] (sf_sources <$> o) in
  let out := merge_source_file bq o source_name project_id dataset_id rt rc in
  (∃ yaml_source,
     sf_sources out
     = other_sources source_name dataset_id sources
       ++ [merge_sources bq yaml_source source_name project_id dataset_id
             rt rc])
  ∧ sf_version out = default 2%Z (sf_version <$> o).
Proof.
  intros sources out. subst sources out. rewrite merge_source_file_eq.
  split; [| by destruct o].
  eexists. cbv zeta. cbn [sf_sources]. f_equal.
  unfold other_sources. destruct o as [f|]; simpl; [| done].
  apply list_filter_iff. intros s. apply source_matches_false.
Qed.

(** Scenarios A, B and C of the specification, evaluated. A: without a
    document the snapshot [t1] gives one source with the table [t1] and the
    columns [id] and [name], undescribed. B: the documented column [id] keeps
    its description, meta and tests and takes the remote type; [name] is new.
    C: a table of the document that the snapshot lacks stays last without
    pruning and is gone with it. *)
Example scenarios :
  (sf_sources (merge_source_file [bq_t1] None "ds" "p" "ds" false false)
   = [ {| src_name := "ds"; src_database := Some "p";
          src_schema_name := Some "ds"; src_description := "";
          src_tables := [build_table_from_bigquery bq_t1];
          src_meta := None |} ])
  ∧ (merge_columns (bqt_columns bq_t1) [col_id_documented] false
     = [ {| col_name := "id"; col_data_type := Some "INT64";
            col_description := "Primary key";
            col_meta := Some [("pii", YBool false)];
            col_tests := Some [YStr "unique"] |};
         {| col_name := "name"; col_data_type := Some "STRING";
            col_description := ""; col_meta := None; col_tests := None |} ])
  ∧ (tbl_name <$> src_tables
       (merge_sources [bq_t1] (Some (src_ds [tbl_alias; tbl_t1_legacy]))
          "ds" "p" "ds" false false)
     = ["t1"; "orders"])
  ∧ (tbl_name <$> src_tables
       (merge_sources [bq_t1] (Some (src_ds [tbl_alias; tbl_t1_legacy]))
          "ds" "p" "ds" true false)
     = ["t1"]).
Proof. split_and!; vm_compute; reflexivity. Qed.

(** ** Serialization *)

Section serialization.
(** The goals left by a case analysis on the truthiness of the fields. *)
Ltac shape_goal :=
  lazymatch goal with
  | |- sublist _ _ => lazy; repeat constructor
  | |- _ = None → _ => intros H; first [discriminate H | split; [by_eval | reflexivity]]
  | |- _ => reflexivity
  end.

Lemma serialize_columns_eq (cs : list DbtColumn) :
  foldl (λ columns column, columns ++ [YMap (serialize_column column)]) [] cs
  = (YMap ∘ serialize_column) <$> cs.
Proof. apply (foldl_snoc_fmap (YMap ∘ serialize_column) cs []). Qed.

Lemma serialize_tables_eq (ts : list DbtTable) :
  foldl (λ tables table, tables ++ [YMap (serialize_table table)]) [] ts
  = (YMap ∘ serialize_table) <$> ts.
Proof. apply (foldl_snoc_fmap (YMap ∘ serialize_table) ts []). Qed.

Lemma serialize_sources_eq (ss : list DbtSource) :
  foldl (λ sources source, sources ++ [YMap (serialize_source source)]) [] ss
  = (YMap ∘ serialize_source) <$> ss.
Proof. apply (foldl_snoc_fmap (YMap ∘ serialize_source) ss []). Qed.

Lemma serialize_column_shape (c : DbtColumn) : column_shape c.
Proof.
  destruct c as [name dt desc meta tests].
  unfold column_shape, keys_follow, omitted_if_unset, column_keys.
  destruct dt as [[|? ?]|], desc as [|? ?], meta as [[|? ?]|],
    tests as [[|? ?]|]; cbv zeta; split_and!; shape_goal.
Qed.
Lemma serialize_table_shape (t : DbtTable) : table_shape t.
Proof.
  destruct t as [name ident desc cols meta tests].
  unfold table_shape, keys_follow, omitted_if_unset, table_keys, emitted,
    serialize_table.
  cbn [tbl_name tbl_identifier tbl_description tbl_columns tbl_meta
       tbl_tests].
  rewrite serialize_columns_eq.
  destruct ident as [[|? ?]|], desc as [|? ?], meta as [[|? ?]|],
    tests as [[|? ?]|], cols as [|? ?]; cbv zeta; split_and!; shape_goal.
Qed.

Lemma serialize_source_shape (s : DbtSource) : source_shape s.
Proof.
  destruct s as [name db schema desc tables meta].
  unfold source_shape, keys_follow, omitted_if_unset, source_keys,
    serialize_source.
  cbn [src_name src_database src_schema_name src_description src_tables
       src_meta].
  rewrite serialize_tables_eq.
  generalize (YList ((YMap ∘ serialize_table) <$> tables)). intros v.
  destruct db as [[|? ?]|], schema as [[|? ?]|], desc as [|? ?],
    meta as [[|? ?]|]; cbv zeta; split_and!; shape_goal.
Qed.

Lemma serialize_source_file_shape (f : DbtSourceFile) : file_shape f.
Proof.
  unfold file_shape, serialize_source_file.
  by rewrite serialize_sources_eq.
Qed.
End serialization.

(** What is written, entry by entry. *)
Lemma serialize_column_written (c : DbtColumn) : column_written c.
Proof.
  destruct c as [name dt desc meta tests]. unfold column_written.
  by destruct dt as [[|? ?]|], desc as [|? ?], meta as [[|? ?]|],
    tests as [[|? ?]|].
Qed.

Lemma serialize_table_written (t : DbtTable) : table_written t.
Proof.
  destruct t as [name ident desc cols meta tests].
  unfold table_written, serialize_table.
  cbn [tbl_name tbl_identifier tbl_description tbl_columns tbl_meta tbl_tests].
  rewrite serialize_columns_eq.
  by destruct ident as [[|? ?]|], desc as [|? ?], meta as [[|? ?]|],
    tests as [[|? ?]|], cols as [|? ?].
Qed.

Lemma serialize_source_written (s : DbtSource) : source_written s.
Proof.
  destruct s as [name db schema desc tables meta].
  unfold source_written, serialize_source.
  cbn [src_name src_database src_schema_name src_description src_tables
       src_meta].
  rewrite serialize_tables_eq.
  by destruct db as [[|? ?]|], schema as [[|? ?]|], desc as [|? ?],
    meta as [[|? ?]|].
Qed.

(** C8. The dictionary built by [_serialize_source_file] is [version] then
    [sources], with the document's version and its serialized sources. The
    dictionary of every source, table and column is exactly: the entry
    [name] with the entity's name, then, in the fixed order of the storage
    format, one entry for each optional field that is set and not empty,
    with the field's value, and no entry for a field that is unset or
    empty; a source always ends with [tables], a table ends with [columns]
    when it has any; the nested lists are the serialized entities in their
    order. So the keys follow the fixed order, an unset optional field has
    no entry, and no null or empty value is written under any key but [name]
    and the [tables] of a source. *)
Theorem serialize_omits_unset_in_key_order :
  (∀ f : DbtSourceFile,
     file_shape f ∧ dict_keys (serialize_source_file f) = file_keys)
  ∧ (∀ s : DbtSource, source_shape s ∧ source_written s)
  ∧ (∀ t : DbtTable, table_shape t ∧ table_written t)
  ∧ (∀ c : DbtColumn, column_shape c ∧ column_written c).
Proof.
  split_and!.
  - intros f. split; [apply serialize_source_file_shape |].
    by rewrite serialize_source_file_shape.
  - intros s. split; [apply serialize_source_shape |].
    apply serialize_source_written.
  - intros t. split; [apply serialize_table_shape |].
    apply serialize_table_written.
  - intros c. split; [apply serialize_column_shape |].
    apply serialize_column_written.
Qed.

(** The key order on a table with every field set, and on one with none. *)
Example serialize_table_keys :
  dict_keys (serialize_table tbl_t1_legacy)
  = ["name"; "identifier"; "description"; "meta"; "columns"]
  ∧ dict_keys (serialize_column col_id_documented) = column_keys
  ∧ dict_keys (serialize_source (src_ds [])) = source_keys
  ∧ serialize_column col_empty_fields = [("name", YStr "c")].
Proof. by vm_compute. Qed.

(** ** Parsing what was serialized *)

Section roundtrip.
Lemma mapM_fmap_eq {A B C} (f : B → option C) (g : A → B) (h : A → C)
    (l : list A) :
  (∀ x, f (g x) = Some (h x)) → mapM f (g <$> l) = Some (h <$> l).
Proof.
  intros Hf. induction l as [|x l IH]; [done |].
  rewrite !fmap_cons. simpl. by rewrite Hf, IH.
Qed.

Lemma parse_serialize_column (c : DbtColumn) :
  parse_column (YMap (serialize_column c)) = Some (unset_empty_column c).
Proof.
  destruct c as [name dt desc meta tests].
  by destruct dt as [[|? ?]|], desc as [|? ?], meta as [[|? ?]|],
    tests as [[|? ?]|].
Qed.

Lemma parse_serialize_columns (t : DbtTable) :
  parse_columns (dict_get "columns" (serialize_table t))
  = Some (unset_empty_column <$> tbl_columns t).
Proof.
  destruct (serialize_table_shape t) as (_ & _ & _ & _ & _ & ->).
  unfold emitted. destruct (tbl_columns t) as [|c cs]; [done |].
  unfold parse_columns.
  cbn [truthy_list truthy_opt yaml_truthy fmap list_fmap mbind option_bind
       py_iter].
  apply (mapM_fmap_eq parse_column (YMap ∘ serialize_column)
           unset_empty_column (c :: cs)).
  apply parse_serialize_column.
Qed.

Lemma parse_serialize_table (t : DbtTable) :
  parse_table (YMap (serialize_table t)) = Some (unset_empty_table t).
Proof.
  unfold parse_table. cbn [as_dict mbind option_bind].
  rewrite parse_serialize_columns. cbn [mbind option_bind].
  unfold unset_empty_table.
  generalize (unset_empty_column <$> tbl_columns t). intros cols'.
  destruct t as [name ident desc cols meta tests].
  by destruct ident as [[|? ?]|], desc as [|? ?], meta as [[|? ?]|],
    tests as [[|? ?]|], cols as [|? ?].
Qed.

Lemma parse_serialize_source (s : DbtSource) :
  parse_source (YMap (serialize_source s)) = Some (unset_empty_source s).
Proof.
  unfold parse_source, dict_get_default. cbn [as_dict mbind option_bind].
  destruct (serialize_source_shape s) as (_ & _ & _ & _ & _ & Htables).
  rewrite Htables. cbn [default from_option py_iter mbind option_bind id].
  rewrite (mapM_fmap_eq parse_table (YMap ∘ serialize_table)
             unset_empty_table _ parse_serialize_table).
  cbn [mbind option_bind]. unfold unset_empty_source.
  generalize (unset_empty_table <$> src_tables s). intros tables'.
  clear Htables. destruct s as [name db schema desc tables meta].
  by destruct db as [[|? ?]|], schema as [[|? ?]|], desc as [|? ?],
    meta as [[|? ?]|].
Qed.

Lemma parse_serialize_source_file (f : DbtSourceFile) :
  parse_source_file (YMap (serialize_source_file f))
  = Some (unset_empty_file f).
Proof.
  rewrite serialize_source_file_shape.
  unfold parse_source_file, dict_get_default. simpl.
  by rewrite (mapM_fmap_eq parse_source (YMap ∘ serialize_source)
                unset_empty_source _ parse_serialize_source).
Qed.

Lemma unset_empty_id {A} (truthy : A → bool) (o : option A) :
  unset_or_nonempty truthy o = true → unset_empty truthy o = o.
Proof. unfold unset_empty. destruct o; simpl; [| done]. by intros ->. Qed.

Lemma fmap_id_on {A} (h : A → A) (dom : A → bool) (l : list A) :
  (∀ x, dom x = true → h x = x) → forallb dom l = true → h <$> l = l.
Proof.
  intros Hh. induction l as [|x l IH]; [done |]. simpl.
  intros [Hx Hl]%andb_true_iff. rewrite Hh by done. f_equal. by apply IH.
Qed.

Lemma unset_empty_column_id (c : DbtColumn) :
  column_in_domain c = true → unset_empty_column c = c.
Proof.
  unfold column_in_domain, unset_empty_column.
  intros [[H1 H2]%andb_true_iff H3]%andb_true_iff.
  rewrite !unset_empty_id by done. by destruct c.
Qed.

Lemma unset_empty_table_id (t : DbtTable) :
  table_in_domain t = true → unset_empty_table t = t.
Proof.
  unfold table_in_domain, unset_empty_table.
  intros [[[H1 H2]%andb_true_iff H3]%andb_true_iff H4]%andb_true_iff.
  rewrite !unset_empty_id by done.
  rewrite (fmap_id_on _ _ _ unset_empty_column_id H4). by destruct t.
Qed.

Lemma unset_empty_source_id (s : DbtSource) :
  source_in_domain s = true → unset_empty_source s = s.
Proof.
  unfold source_in_domain, unset_empty_source.
  intros [[[H1 H2]%andb_true_iff H3]%andb_true_iff H4]%andb_true_iff.
  rewrite !unset_empty_id by done.
  rewrite (fmap_id_on _ _ _ unset_empty_table_id H4). by destruct s.
Qed.

Lemma unset_empty_file_id (f : DbtSourceFile) :
  file_in_domain f = true → unset_empty_file f = f.
Proof.
  unfold file_in_domain, unset_empty_file. intros H.
  rewrite (fmap_id_on _ _ _ unset_empty_source_id H). by destruct f.
Qed.
End roundtrip.

(** C9. The update path of [apply] hands [merge_source_file] the flags
    [remove_deleted_tables = remove_deleted] and
    [remove_deleted_columns = remove_deleted and sync_columns], for all four
    values of the two flags: columns are pruned exactly when both pruning and
    column sync are requested. *)
Theorem apply_flag_mapping :
  (∀ (bq : list BigQueryTable) (existing_file : option DbtSourceFile)
     (project_id schema : string) (sync_columns remove_deleted : bool),
     apply_update bq existing_file project_id schema sync_columns
       remove_deleted
     = merge_source_file bq existing_file
         (find_source_name schema existing_file) project_id schema
         remove_deleted (remove_deleted && sync_columns))
  ∧ (∀ sync_columns remove_deleted : bool,
       (apply_flags sync_columns remove_deleted).1 = remove_deleted
       ∧ ((apply_flags sync_columns remove_deleted).2 = true
          ↔ remove_deleted = true ∧ sync_columns = true))
  ∧ apply_flags false false = (false, false)
  ∧ apply_flags true false = (false, false)
  ∧ apply_flags false true = (true, false)
  ∧ apply_flags true true = (true, true).
Proof.
  split_and!; try done.
  intros sync_columns remove_deleted. split; [done |].
  simpl. apply andb_true_iff.
Qed.

(** C10. Parsing the dictionary that [_serialize_source_file] builds gives
    back the source file when every optional field (database, schema name,
    identifier, data type, meta, tests) is unset or non-empty; in general it
    gives the source file in which every empty optional value is unset, so
    an empty meta mapping, an empty tests list and an empty data type come
    back as unset. *)
Theorem parse_serialize_roundtrip (f : DbtSourceFile) :
  (file_in_domain f = true →
   parse_source_file (YMap (serialize_source_file f)) = Some f)
  ∧ parse_source_file (YMap (serialize_source_file f))
    = Some (unset_empty_file f)
  ∧ parse_column (YMap (serialize_column col_empty_fields))
    = Some {| col_name := "c"; col_data_type := None; col_description := "";
              col_meta := None; col_tests := None |}.
Proof.
  split_and!.
  - intros Hf. rewrite parse_serialize_source_file.
    by rewrite unset_empty_file_id.
  - apply parse_serialize_source_file.
  - reflexivity.
Qed.

Lemma parse_serialize_roundtrip_witness :
  file_in_domain doc_full = true
  ∧ parse_source_file (YMap (serialize_source_file doc_full)) = Some doc_full.
Proof.
  split; [reflexivity |].
  apply (proj1 (parse_serialize_roundtrip doc_full)). reflexivity.
Defined.


(** * Further properties of the code *)

(** ** Successive reconciliations *)

Section successive.
Implicit Types (bq : list BigQueryColumn) (ys : list DbtColumn).

Lemma merge_columns_twice bq ys (r1 r2 : bool) :
  NoDup (bqc_name <$> bq) →
  merge_columns bq (merge_columns bq ys r1) r2 = merge_columns bq ys (r1 || r2).
Proof.
  intros Hnd. rewrite (merge_columns_eq bq (merge_columns _ _ _)).
  rewrite !merge_columns_eq. f_equal.
  - apply list_fmap_ext. intros i c Hc.
    apply list_elem_of_lookup_2 in Hc.
    unfold merged_column at 1.
    rewrite (index_by_merged bqc_name col_name (merged_column ys)
               (merged_column_name ys) bq _ c Hnd Hc).
    + apply update_merged_column.
    + intros d Hd. destruct r1; [by apply elem_of_nil in Hd |].
      by apply list_elem_of_filter in Hd as [? _].
  - destruct r2; [by rewrite orb_true_r |]. rewrite orb_false_r.
    destruct r1.
    + rewrite app_nil_r.
      apply (doc_only_of_remote bqc_name col_name (merged_column ys)
               (merged_column_name ys)).
    + apply (doc_only_of_merged bqc_name col_name (merged_column ys)
               (merged_column_name ys)).
Qed.

Lemma merge_table_twice (b : BigQueryTable) (y : option DbtTable)
    (r1 r2 : bool) :
  NoDup (bqc_name <$> bqt_columns b) →
  merge_table b (Some (merge_table b y r1)) r2 = merge_table b y (r1 || r2).
Proof.
  intros Hnd. destruct y as [y|].
  - unfold merge_table; simpl.
    rewrite !or_empty, merge_columns_twice by done. f_equal.
    destruct (tbl_description y) as [|c d]; simpl; [| done].
    unfold or_str. by destruct (bqt_description b) as [[|c d]|].
  - change (merge_table b None r1) with (merge_table b None r2).
    change (merge_table b None (r1 || r2)) with (merge_table b None r2).
    by apply merge_table_idem.
Qed.

Lemma merge_sources_twice (bq : list BigQueryTable) (o : option DbtSource)
    (source_name project_id dataset_id : string) (rt1 rc1 rt2 rc2 : bool) :
  snapshot_unique bq →
  merge_sources bq
    (Some (merge_sources bq o source_name project_id dataset_id rt1 rc1))
    source_name project_id dataset_id rt2 rc2
  = merge_sources bq o source_name project_id dataset_id
      (rt1 || rt2) (rc1 || rc2).
Proof.
  intros [Hids Hcols].
  rewrite (merge_sources_eq bq (Some _)). rewrite !merge_sources_eq.
  set (s := default _ o). cbn [default from_option id src_name src_database
    src_schema_name src_description src_tables src_meta]. cbv zeta.
  rewrite !or_str_idem. f_equal. f_equal.
  - apply list_fmap_ext. intros i b Hb.
    apply list_elem_of_lookup_2 in Hb.
    unfold merged_table at 1.
    rewrite (index_by_merged bqt_table_id tbl_name
               (merged_table (src_tables s) rc1)
               (merged_table_name (src_tables s) rc1) bq _ b Hids Hb).
    + apply merge_table_twice. by eapply Forall_forall in Hcols.
    + intros d Hd. destruct rt1; [by apply elem_of_nil in Hd |].
      by apply list_elem_of_filter in Hd as [? _].
  - destruct rt2; [by rewrite orb_true_r |]. rewrite orb_false_r.
    destruct rt1.
    + rewrite app_nil_r.
      apply (doc_only_of_remote bqt_table_id tbl_name
               (merged_table (src_tables s) rc1)
               (merged_table_name (src_tables s) rc1)).
    + apply (doc_only_of_merged bqt_table_id tbl_name
               (merged_table (src_tables s) rc1)
               (merged_table_name (src_tables s) rc1)).
Qed.
End successive.

(** The document produced by [merge_source_file], read again by the selection
    loop for the same target: the merged source is selected and the other
    sources stay. *)
Lemma select_source_merged (bq : list BigQueryTable) (o : option DbtSourceFile)
    (source_name project_id dataset_id : string) (rt rc : bool) :
  let out := merge_source_file bq o source_name project_id dataset_id rt rc in
  ∃ others merged,
    sf_sources out = others ++ [merged]
    ∧ merged
      = merge_sources bq
          (last (filter (λ s, source_matches source_name dataset_id s = true)
                   (default [] (sf_sources <$> o))))
          source_name project_id dataset_id rt rc
    ∧ select_source source_name dataset_id (sf_sources out)
      = (Some merged, others).
Proof.
  intros out. subst out. rewrite merge_source_file_eq.
  set (f := default _ o). cbv zeta. cbn [sf_sources].
  set (others := filter (λ s, source_matches _ _ s ≠ true) (sf_sources f)).
  assert (default [] (sf_sources <$> o) = sf_sources f) as -> by by destruct o.
  set (merged := merge_sources _ _ _ _ _ _ _).
  exists others, merged. split_and!; [done | done |].
  assert (source_matches source_name dataset_id merged = true) as Hm.
  { apply merged_source_matches.
    destruct (last _) as [s|] eqn:E; simpl; [| done].
    apply last_Some_elem_of in E.
    by apply list_elem_of_filter in E as [? _]. }
  rewrite select_source_eq, !filter_app, !filter_cons, !filter_nil.
  rewrite decide_True by done.
  rewrite decide_False by (intros Hn; by apply Hn).
  assert (filter (λ s, source_matches source_name dataset_id s = true) others
          = []) as ->.
  { apply filter_none. intros s Hs Hs'.
    by apply list_elem_of_filter in Hs as [Hs _]. }
  assert (filter (λ s, source_matches source_name dataset_id s ≠ true) others
          = others) as ->
    by by apply list_filter_filter_l.
  by rewrite app_nil_r.
Qed.

(** X1. For remote columns with distinct names, merging the output of
    [merge_columns] again against the same remote columns, with another prune
    flag, gives what one merge with the disjunction of the two flags gives:
    a later run without pruning brings nothing back, and a later run with
    pruning prunes what an earlier run kept. *)
Theorem merge_columns_flags_compose (bq : list BigQueryColumn)
    (ys : list DbtColumn) (r1 r2 : bool) :
  NoDup (bqc_name <$> bq) →
  merge_columns bq (merge_columns bq ys r1) r2 = merge_columns bq ys (r1 || r2).
Proof. apply merge_columns_twice. Qed.

Lemma merge_columns_flags_compose_witness :
  NoDup (bqc_name <$> bqt_columns bq_t1)
  ∧ merge_columns (bqt_columns bq_t1)
      (merge_columns (bqt_columns bq_t1) [col_empty_fields; col_id_documented]
         false) true
    = merge_columns (bqt_columns bq_t1) [col_empty_fields; col_id_documented]
        (false || true).
Proof.
  split; [by_eval |].
  apply (merge_columns_flags_compose (bqt_columns bq_t1)). by_eval.
Defined.

Lemma merge_source_file_twice (bq : list BigQueryTable)
    (o : option DbtSourceFile) (source_name project_id dataset_id : string)
    (rt1 rc1 rt2 rc2 : bool) :
  snapshot_unique bq →
  merge_source_file bq
    (Some (merge_source_file bq o source_name project_id dataset_id rt1 rc1))
    source_name project_id dataset_id rt2 rc2
  = merge_source_file bq o source_name project_id dataset_id
      (rt1 || rt2) (rc1 || rc2).
Proof.
  intros Hbq.
  destruct (select_source_merged bq o source_name project_id dataset_id
              rt1 rc1) as (others & merged & Hout & Hmerged & Hsel).
  unfold merge_source_file at 1. cbv zeta in Hsel. rewrite Hsel.
  rewrite Hmerged, merge_sources_twice by done.
  rewrite !merge_source_file_eq in *. cbv zeta in *. cbn [sf_sources] in Hout.
  cbn [sf_version]. f_equal.
  apply app_inj_tail in Hout as [<- _].
  f_equal. f_equal. f_equal. by destruct o.
Qed.

(** X2. On a snapshot with distinct table ids and distinct column names,
    [merge_source_file] applied to its own output for the same target, with
    other prune flags, gives what one application with the disjunctions of
    the table flags and of the column flags gives. *)
Theorem merge_source_file_flags_compose (bq : list BigQueryTable)
    (o : option DbtSourceFile) (source_name project_id dataset_id : string)
    (rt1 rc1 rt2 rc2 : bool) :
  snapshot_unique bq →
  merge_source_file bq
    (Some (merge_source_file bq o source_name project_id dataset_id rt1 rc1))
    source_name project_id dataset_id rt2 rc2
  = merge_source_file bq o source_name project_id dataset_id
      (rt1 || rt2) (rc1 || rc2).
Proof. apply merge_source_file_twice. Qed.

Lemma merge_source_file_flags_compose_witness :
  snapshot_unique [bq_t1]
  ∧ merge_source_file [bq_t1]
      (Some (merge_source_file [bq_t1]
               (Some {| sf_version := 2;
                        sf_sources := [src_other;
                                       src_ds [tbl_alias; tbl_t1_legacy]] |})
               "ds" "p" "ds" false false))
      "ds" "p" "ds" true true
    = merge_source_file [bq_t1]
        (Some {| sf_version := 2;
                 sf_sources := [src_other;
                                src_ds [tbl_alias; tbl_t1_legacy]] |})
        "ds" "p" "ds" (false || true) (false || true).
Proof.
  split; [by_eval |].
  apply (merge_source_file_flags_compose [bq_t1]). by_eval.
Defined.

(** ** Names in the output *)

Section names.

(** The names of the document-only entries, for any keyed list. *)
Lemma filter_fmap_notin {D} (dkey : D → string) (rnames : list string)
    (ys : list D) :
  dkey <$> filter (λ d, dkey d ∉ rnames) ys
  = filter (λ n, n ∉ rnames) (dkey <$> ys).
Proof.
  induction ys as [|y ys IH]; [done |].
  rewrite fmap_cons, !filter_cons.
  destruct (decide (dkey y ∉ rnames)); [| done].
  by rewrite fmap_cons, IH.
Qed.

Lemma merge_columns_names_eq (bq : list BigQueryColumn) (ys : list DbtColumn)
    (rd : bool) :
  col_name <$> merge_columns bq ys rd
  = (bqc_name <$> bq)
    ++ (if rd then []
        else filter (λ n, n ∉ bqc_name <$> bq) (col_name <$> ys)).
Proof.
  rewrite merge_columns_eq, fmap_app, merged_column_names. f_equal.
  destruct rd; [done |]. apply filter_fmap_notin.
Qed.

Lemma merged_table_names (bq : list BigQueryTable) (ys : list DbtTable)
    (rc : bool) :
  tbl_name <$> (merged_table ys rc <$> bq) = bqt_table_id <$> bq.
Proof.
  rewrite <- list_fmap_compose. apply list_fmap_ext.
  intros i b _. apply merged_table_name.
Qed.

Lemma merge_sources_names_eq (bq : list BigQueryTable) (o : option DbtSource)
    (source_name project_id dataset_id : string) (rt rc : bool) :
  tbl_name <$> src_tables
    (merge_sources bq o source_name project_id dataset_id rt rc)
  = (bqt_table_id <$> bq)
    ++ (if rt then []
        else filter (λ n, n ∉ bqt_table_id <$> bq)
               (tbl_name <$> default [] (src_tables <$> o))).
Proof.
  rewrite merge_sources_eq. cbv zeta. cbn [src_tables].
  rewrite fmap_app, merged_table_names. f_equal.
  destruct rt; [done |]. unfold doc_only_tables.
  rewrite filter_fmap_notin. by destruct o.
Qed.

Lemma NoDup_remote_then_doc_only (rnames dnames : list string) :
  NoDup rnames → NoDup dnames →
  NoDup (rnames ++ filter (λ n, n ∉ rnames) dnames).
Proof.
  intros Hr Hd. apply NoDup_app. split_and!; [done | |].
  - intros n Hn Hn'. by apply list_elem_of_filter in Hn' as [? _].
  - by apply NoDup_filter.
Qed.

Lemma merge_columns_NoDup (bq : list BigQueryColumn) (ys : list DbtColumn)
    (rd : bool) :
  NoDup (bqc_name <$> bq) → NoDup (col_name <$> ys) →
  NoDup (col_name <$> merge_columns bq ys rd).
Proof.
  intros Hbq Hys. rewrite merge_columns_names_eq. destruct rd.
  - by rewrite app_nil_r.
  - by apply NoDup_remote_then_doc_only.
Qed.

Lemma NoDup_fmap_elem_eq {A} (f : A → string) (l : list A) (x y : A) :
  NoDup (f <$> l) → x ∈ l → y ∈ l → f x = f y → x = y.
Proof.
  induction l as [|a l IH]; intros Hnd Hx Hy Hf; [by apply elem_of_nil in Hx |].
  rewrite fmap_cons in Hnd. apply NoDup_cons in Hnd as [Ha Hnd].
  apply elem_of_cons in Hx as [-> | Hx]; apply elem_of_cons in Hy as [-> | Hy].
  - done.
  - destruct Ha. rewrite Hf. by apply list_elem_of_fmap_2.
  - destruct Ha. rewrite <- Hf. by apply list_elem_of_fmap_2.
  - by apply IH.
Qed.

Lemma Forall_filter_keep {A} (P Q : A → Prop) `{!∀ x, Decision (Q x)}
    (l : list A) :
  Forall P l → Forall P (filter Q l).
Proof.
  rewrite !Forall_forall. intros Hl x Hx.
  apply list_elem_of_filter in Hx as [_ Hx]. by apply Hl.
Qed.

Lemma merge_table_unique (b : BigQueryTable) (y : option DbtTable) (rc : bool) :
  NoDup (bqc_name <$> bqt_columns b) → from_option table_unique True y →
  table_unique (merge_table b y rc).
Proof.
  intros Hb Hy. unfold table_unique. destruct y as [y|]; simpl.
  - rewrite or_empty. by apply merge_columns_NoDup.
  - rewrite <- list_fmap_compose.
    by rewrite (list_fmap_ext (col_name ∘ build_column_from_bigquery) bqc_name
                  (bqt_columns b) (λ _ _ _, eq_refl)).
Qed.

Lemma merge_sources_unique (bq : list BigQueryTable) (o : option DbtSource)
    (source_name project_id dataset_id : string) (rt rc : bool) :
  snapshot_unique bq → from_option source_unique True o →
  source_unique (merge_sources bq o source_name project_id dataset_id rt rc).
Proof.
  intros [Hids Hcols] Ho.
  assert (source_unique (default (new_source source_name project_id dataset_id)
                           o)) as [Hnames Htabs].
  { destruct o; [done |]. split; simpl; constructor. }
  split.
  - rewrite merge_sources_names_eq.
    assert (default [] (src_tables <$> o)
            = src_tables (default (new_source source_name project_id
                                     dataset_id) o)) as -> by by destruct o.
    destruct rt; [by rewrite app_nil_r |].
    by apply NoDup_remote_then_doc_only.
  - rewrite merge_sources_eq. cbv zeta. cbn [src_tables].
    apply Forall_app. split.
    + apply Forall_fmap, Forall_forall. intros b Hb. simpl.
      unfold merged_table. apply merge_table_unique.
      * by eapply Forall_forall in Hcols.
      * destruct (_ !! _) as [y|] eqn:E; simpl; [| done].
        apply index_by_Some in E as [E _].
        by eapply Forall_forall in Htabs.
    + destruct rt; [constructor |]. by apply Forall_filter_keep.
Qed.
End names.

(** X3. Without pruning, the names of the columns that [merge_columns]
    returns are exactly the remote names and the document's names, so no name
    of either side is lost; with pruning they are the remote names, in
    order, and the pruned output is a prefix of the unpruned one. The same
    holds for the table names of [merge_sources]. *)
Theorem merge_keeps_every_name :
  (∀ (bq : list BigQueryColumn) (ys : list DbtColumn),
     col_name <$> merge_columns bq ys true = bqc_name <$> bq
     ∧ merge_columns bq ys true `prefix_of` merge_columns bq ys false
     ∧ ∀ n, n ∈ col_name <$> merge_columns bq ys false
            ↔ n ∈ bqc_name <$> bq ∨ n ∈ col_name <$> ys)
  ∧ (∀ (bq : list BigQueryTable) (s : DbtSource)
       (source_name project_id dataset_id : string) (rc : bool),
       let tables rt :=
         src_tables
           (merge_sources bq (Some s) source_name project_id dataset_id rt rc)
       in
       tbl_name <$> tables true = bqt_table_id <$> bq
       ∧ tables true `prefix_of` tables false
       ∧ ∀ n, n ∈ tbl_name <$> tables false
              ↔ n ∈ bqt_table_id <$> bq ∨ n ∈ tbl_name <$> src_tables s).
Proof.
  split.
  - intros bq ys. split_and!.
    + by rewrite merge_columns_names_eq, app_nil_r.
    + rewrite !merge_columns_eq, app_nil_r. by eexists.
    + intros n. rewrite merge_columns_names_eq, elem_of_app, list_elem_of_filter.
      destruct (decide (n ∈ bqc_name <$> bq)); tauto.
  - intros bq s sn p d rc tables. subst tables. cbv beta. split_and!.
    + by rewrite merge_sources_names_eq, app_nil_r.
    + rewrite !merge_sources_eq. cbv zeta. cbn [src_tables].
      rewrite app_nil_r. by eexists.
    + intros n. rewrite merge_sources_names_eq, elem_of_app, list_elem_of_filter.
      simpl. destruct (decide (n ∈ bqt_table_id <$> bq)); tauto.
Qed.

(** X4. [merge_columns] keeps column names distinct: when the remote column
    names are pairwise distinct and so are the document's column names, the
    names of the merged columns are pairwise distinct, whatever the prune
    flag. *)
Theorem merge_columns_keeps_names_distinct (bq : list BigQueryColumn)
    (ys : list DbtColumn) (rd : bool) :
  NoDup (bqc_name <$> bq) → NoDup (col_name <$> ys) →
  NoDup (col_name <$> merge_columns bq ys rd).
Proof. apply merge_columns_NoDup. Qed.

Lemma merge_columns_keeps_names_distinct_witness :
  NoDup (bqc_name <$> bqt_columns bq_t1)
  ∧ NoDup (col_name <$> [col_empty_fields; col_id_documented])
  ∧ NoDup (col_name <$> merge_columns (bqt_columns bq_t1)
                          [col_empty_fields; col_id_documented] false).
Proof.
  split; [by_eval |]. split; [by_eval |].
  apply (merge_columns_keeps_names_distinct (bqt_columns bq_t1)); by_eval.
Defined.

(** X5. [merge_source_file] keeps the names of a document distinct: on a
    snapshot with distinct table ids and column names, if the source names of
    the document, the table names of each source and the column names of each
    table are pairwise distinct, they are so in the output. *)
Theorem merge_source_file_keeps_names_distinct (bq : list BigQueryTable)
    (o : option DbtSourceFile) (source_name project_id dataset_id : string)
    (rt rc : bool) :
  snapshot_unique bq → from_option file_unique True o →
  file_unique
    (merge_source_file bq o source_name project_id dataset_id rt rc).
Proof.
  intros Hbq Ho. rewrite merge_source_file_eq.
  set (f := default _ o).
  assert (file_unique f) as [Hnames Hsrcs].
  { destruct o; [done |]. split; simpl; constructor. }
  cbv zeta.
  set (matching := filter (λ s, source_matches _ _ s = true) (sf_sources f)).
  set (others := filter (λ s, source_matches _ _ s ≠ true) (sf_sources f)).
  assert (from_option (λ s, s ∈ matching) True (last matching)) as Hlast.
  { destruct (last matching) eqn:E; simpl; [| done].
    by apply last_Some_elem_of. }
  split; cbn [sf_sources].
  - rewrite fmap_app. apply NoDup_app. split_and!.
    + apply (NoDup_fmap_2_strong src_name).
      * intros x y Hx Hy. apply list_elem_of_filter in Hx as [_ Hx].
        apply list_elem_of_filter in Hy as [_ Hy].
        by apply (NoDup_fmap_elem_eq src_name (sf_sources f)).
      * apply NoDup_filter. by apply NoDup_fmap_1 in Hnames.
    + intros n Hn Hn'. apply list_elem_of_fmap in Hn as (x & -> & Hx).
      apply list_elem_of_filter in Hx as [Hxm Hx].
      apply list_elem_of_singleton in Hn'. rewrite merge_sources_eq in Hn'.
      cbv zeta in Hn'. cbn [src_name] in Hn'.
      destruct (last matching) as [l|]; simpl in *.
      * apply list_elem_of_filter in Hlast as [Hlm Hl].
        assert (x = l) as -> by
          by apply (NoDup_fmap_elem_eq src_name (sf_sources f)).
        done.
      * apply Hxm. unfold source_matches. rewrite Hn'.
        by rewrite String.eqb_refl.
    + apply NoDup_singleton.
  - apply Forall_app. split.
    + by apply Forall_filter_keep.
    + constructor; [| constructor]. apply merge_sources_unique; [done |].
      destruct (last matching) as [l|]; simpl in *; [| done].
      apply list_elem_of_filter in Hlast as [_ Hl].
      by eapply Forall_forall in Hsrcs.
Qed.

Lemma merge_source_file_keeps_names_distinct_witness :
  snapshot_unique [bq_t1]
  ∧ file_unique doc_full
  ∧ file_unique (merge_source_file [bq_t1] (Some doc_full) "ds" "p" "ds"
                   false true).
Proof.
  split; [by_eval |]. split; [by_eval |].
  apply (merge_source_file_keeps_names_distinct [bq_t1] (Some doc_full));
    by_eval.
Defined.

(** X6. The empty snapshot: against no remote columns [merge_columns]
    returns the document's columns as they are without pruning and no column
    with pruning; against no remote tables [merge_sources] keeps the tables
    of the source as they are without pruning and drops them all with
    pruning; a document table matched by a remote table that has no columns
    keeps its columns without pruning and loses them all with pruning. *)
Theorem merge_with_empty_snapshot :
  (∀ ys : list DbtColumn,
     merge_columns [] ys false = ys ∧ merge_columns [] ys true = [])
  ∧ (∀ (s : DbtSource) (source_name project_id dataset_id : string)
       (rc : bool),
       src_tables (merge_sources [] (Some s) source_name project_id dataset_id
                     false rc) = src_tables s
       ∧ src_tables (merge_sources [] (Some s) source_name project_id
                       dataset_id true rc) = [])
  ∧ (∀ (table_id : string) (description : option string) (y : DbtTable),
       let b := {| bqt_table_id := table_id; bqt_description := description;
                   bqt_columns := [] |} in
       tbl_columns (merge_table b (Some y) false) = tbl_columns y
       ∧ tbl_columns (merge_table b (Some y) true) = []).
Proof.
  assert (∀ ys : list DbtColumn,
            merge_columns [] ys false = ys ∧ merge_columns [] ys true = [])
    as Hcols.
  { intros ys. rewrite !merge_columns_eq. split; [| done]. simpl.
    unfold doc_only_columns. induction ys as [|y ys IH]; [done |].
    rewrite filter_cons_True, IH; [done |]. apply not_elem_of_nil. }
  split_and!; [done | |].
  - intros s n p d rc. rewrite !merge_sources_eq. split; [| done]. simpl.
    unfold doc_only_tables. induction (src_tables s) as [|y ys IH]; [done |].
    rewrite filter_cons_True, IH; [done |]. apply not_elem_of_nil.
  - intros id desc y b. subst b. unfold merge_table. simpl.
    rewrite or_empty. apply Hcols.
Qed.

(** ** The source that [apply] updates *)

Section target.

Lemma dataset_source_matches (schema : string) (s : DbtSource) :
  source_matches schema schema s = dataset_source schema s.
Proof. unfold source_matches, dataset_source. apply orb_comm. Qed.

Lemma dataset_source_false (schema : string) (s : DbtSource) :
  dataset_source schema s = false
  ↔ src_name s ≠ schema ∧ src_schema_name s ≠ Some schema.
Proof.
  rewrite <- dataset_source_matches, <- not_true_iff_false.
  apply source_matches_false.
Qed.

Lemma find_dataset_source_none (schema : string) (l : list DbtSource) :
  Forall (λ s, dataset_source schema s = false) l →
  List.find (dataset_source schema) l = None.
Proof.
  induction 1 as [|s l Hs _ IH]; [done |]. simpl. by rewrite Hs.
Qed.

Lemma find_dataset_source_first (schema : string) (l1 l2 : list DbtSource)
    (z : DbtSource) :
  Forall (λ s, dataset_source schema s = false) l1 →
  dataset_source schema z = true →
  List.find (dataset_source schema) (l1 ++ z :: l2) = Some z.
Proof.
  intros Hl1 Hz. induction Hl1 as [|s l Hs _ IH]; simpl.
  - by rewrite Hz.
  - by rewrite Hs.
Qed.

Lemma or_str_same (p : string) : or_str (Some p) p = p.
Proof. by destruct p. Qed.

(** The source that [merge_sources] makes when the document has none. *)
Lemma merge_sources_new (bq : list BigQueryTable)
    (source_name project_id dataset_id : string) (rt rc : bool) :
  merge_sources bq None source_name project_id dataset_id rt rc
  = {| src_name := source_name;
       src_database := Some project_id;
       src_schema_name := Some dataset_id;
       src_description := "";
       src_tables := build_table_from_bigquery <$> bq;
       src_meta := None |}.
Proof.
  rewrite merge_sources_eq. unfold new_source. cbv zeta.
  cbn [default from_option src_name src_database src_schema_name
       src_description src_tables src_meta].
  rewrite !or_str_same. f_equal.
  unfold doc_only_tables. rewrite filter_nil.
  assert ((if rt then [] else []) = @nil DbtTable) as -> by by destruct rt.
  rewrite app_nil_r. apply list_fmap_ext. intros i b _.
  unfold merged_table, index_by. simpl. by rewrite lookup_empty.
Qed.
End target.

(** Without a source for the dataset, [apply] targets the dataset's name and
    [merge_source_file] appends a new source. *)
Lemma apply_update_no_dataset_source (bq : list BigQueryTable)
    (f : DbtSourceFile) (project_id schema : string)
    (sync_columns remove_deleted : bool) :
  Forall (λ s, dataset_source schema s = false) (sf_sources f) →
  find_source_name schema (Some f) = schema
  ∧ apply_update bq (Some f) project_id schema sync_columns remove_deleted
    = {| sf_version := sf_version f;
         sf_sources :=
           sf_sources f
           ++ [ {| src_name := schema;
                   src_database := Some project_id;
                   src_schema_name := Some schema;
                   src_description := "";
                   src_tables := build_table_from_bigquery <$> bq;
                   src_meta := None |} ] |}.
Proof.
  intros Hds.
  assert (find_source_name schema (Some f) = schema) as Hname.
  { unfold find_source_name.
    change (λ source, opt_str_eqb (src_schema_name source) schema
                      || String.eqb (src_name source) schema)
      with (dataset_source schema).
    by rewrite find_dataset_source_none. }
  split; [done |].
  unfold apply_update, apply_flags. rewrite Hname.
  rewrite merge_source_file_eq. cbv zeta. cbn [default from_option id].
  assert (filter (λ s, source_matches schema schema s = true) (sf_sources f)
          = []) as ->.
  { apply filter_none. intros s Hs. rewrite dataset_source_matches.
    eapply Forall_forall in Hds; [| done]. by rewrite Hds. }
  assert (filter (λ s, source_matches schema schema s ≠ true) (sf_sources f)
          = sf_sources f) as ->.
  { induction Hds as [|s l Hs _ IH]; [done |].
    rewrite filter_cons_True, IH; [done |].
    rewrite dataset_source_matches. by rewrite Hs. }
  simpl. by rewrite merge_sources_new.
Qed.

(** X7. When no source of the existing document has the dataset as its name
    or as its schema, the update path of [apply] keeps every source of the
    document as it is and in order, and appends one new source: named as the
    dataset, with the project as database and the dataset as schema, without
    description or meta, with one table built from each remote table. *)
Theorem apply_update_appends_new_source (bq : list BigQueryTable)
    (f : DbtSourceFile) (project_id schema : string)
    (sync_columns remove_deleted : bool) :
  Forall (λ s, src_name s ≠ schema ∧ src_schema_name s ≠ Some schema)
         (sf_sources f) →
  apply_update bq (Some f) project_id schema sync_columns remove_deleted
  = {| sf_version := sf_version f;
       sf_sources :=
         sf_sources f
         ++ [ {| src_name := schema;
                 src_database := Some project_id;
                 src_schema_name := Some schema;
                 src_description := "";
                 src_tables := build_table_from_bigquery <$> bq;
                 src_meta := None |} ] |}.
Proof.
  intros Hnone. apply apply_update_no_dataset_source.
  eapply Forall_impl; [exact Hnone |]. intros s Hs.
  by apply dataset_source_false.
Qed.

Lemma apply_update_appends_new_source_witness :
  Forall (λ s, src_name s ≠ "ds" ∧ src_schema_name s ≠ Some "ds") [src_other]
  ∧ apply_update [bq_t1] (Some {| sf_version := 2; sf_sources := [src_other] |})
      "p" "ds" true false
    = {| sf_version := 2;
         sf_sources :=
           [src_other;
            {| src_name := "ds"; src_database := Some "p";
               src_schema_name := Some "ds"; src_description := "";
               src_tables := [build_table_from_bigquery bq_t1];
               src_meta := None |}] |}.
Proof.
  split; [by_eval |].
  apply (apply_update_appends_new_source [bq_t1]
           {| sf_version := 2; sf_sources := [src_other] |}).
  by_eval.
Defined.

(** X8. When some source of the existing document has the dataset as its
    name or as its schema, the update path of [apply] makes no new source:
    with [z] the first such source, the output lists the sources that have
    neither [z]'s name nor the dataset as schema, unchanged and in order,
    followed by the merge of a source of the document that has [z]'s name or
    the dataset as schema. *)
Theorem apply_update_merges_existing_source (bq : list BigQueryTable)
    (f : DbtSourceFile) (project_id schema : string)
    (sync_columns remove_deleted : bool)
    (l1 l2 : list DbtSource) (z : DbtSource) :
  sf_sources f = l1 ++ z :: l2 →
  Forall (λ s, src_name s ≠ schema ∧ src_schema_name s ≠ Some schema) l1 →
  src_name z = schema ∨ src_schema_name z = Some schema →
  ∃ s, s ∈ sf_sources f
       ∧ (src_name s = src_name z ∨ src_schema_name s = Some schema)
       ∧ sf_sources
           (apply_update bq (Some f) project_id schema sync_columns
              remove_deleted)
         = other_sources (src_name z) schema (sf_sources f)
           ++ [merge_sources bq (Some s) (src_name z) project_id schema
                 remove_deleted (remove_deleted && sync_columns)].
Proof.
  intros Hf Hl1 Hz.
  assert (Forall (λ s, dataset_source schema s = false) l1) as Hds.
  { eapply Forall_impl; [exact Hl1 |]. intros s Hs.
    by apply dataset_source_false. }
  assert (dataset_source schema z = true) as Hzt.
  { destruct (dataset_source schema z) eqn:E; [done |].
    apply dataset_source_false in E as [? ?]. by destruct Hz. }
  unfold apply_update, apply_flags, find_source_name.
  change (λ source, opt_str_eqb (src_schema_name source) schema
                    || String.eqb (src_name source) schema)
    with (dataset_source schema).
  rewrite Hf, find_dataset_source_first by done. rewrite <- Hf.
  rewrite merge_source_file_eq. cbv zeta. cbn [default from_option id sf_sources].
  set (matching := filter (λ s, source_matches _ _ s = true) (sf_sources f)).
  assert (z ∈ matching) as Hzm.
  { apply list_elem_of_filter. split.
    - unfold source_matches. by rewrite String.eqb_refl.
    - rewrite Hf. apply elem_of_app. right. by left. }
  destruct (last matching) as [s|] eqn:E.
  - exists s. apply last_Some_elem_of, list_elem_of_filter in E as [Hsm Hs].
    split_and!; [done | |].
    + destruct (decide (src_name s = src_name z)) as [? | Hn]; [by left |].
      right. destruct (decide (src_schema_name s = Some schema)); [done |].
      exfalso. by apply (source_matches_false (src_name z) schema s).
    + f_equal. unfold other_sources. apply list_filter_iff.
      intros x. apply source_matches_false.
  - apply last_None in E. rewrite E in Hzm. by apply elem_of_nil in Hzm.
Qed.

Lemma apply_update_merges_existing_source_witness :
  ∃ s, s ∈ sf_sources doc_two_matches
       ∧ (src_name s = src_name src_a ∨ src_schema_name s = Some "ds")
       ∧ sf_sources
           (apply_update [bq_t1] (Some doc_two_matches) "p" "ds" false false)
         = other_sources (src_name src_a) "ds" (sf_sources doc_two_matches)
           ++ [merge_sources [bq_t1] (Some s) (src_name src_a) "p" "ds"
                 false (false && false)].
Proof.
  apply (apply_update_merges_existing_source [bq_t1] doc_two_matches
           "p" "ds" false false [] [src_b] src_a).
  - reflexivity.
  - constructor.
  - right. reflexivity.
Defined.

(** ** What is read back from written data *)

Section canonical.

Lemma serialize_unset_empty_column (c : DbtColumn) :
  serialize_column (unset_empty_column c) = serialize_column c.
Proof.
  destruct c as [name dt desc meta tests].
  by destruct dt as [[|? ?]|], desc as [|? ?], meta as [[|? ?]|],
    tests as [[|? ?]|].
Qed.

Lemma serialize_unset_empty_table (t : DbtTable) :
  serialize_table (unset_empty_table t) = serialize_table t.
Proof.
  destruct t as [name ident desc cols meta tests].
  unfold serialize_table, unset_empty_table.
  cbn [tbl_name tbl_identifier tbl_description tbl_columns tbl_meta tbl_tests].
  rewrite !serialize_columns_eq, <- list_fmap_compose.
  rewrite (list_fmap_ext ((YMap ∘ serialize_column) ∘ unset_empty_column)
             (YMap ∘ serialize_column) cols)
    by (intros i c _; simpl; by rewrite serialize_unset_empty_column).
  by destruct ident as [[|? ?]|], desc as [|? ?], meta as [[|? ?]|],
    tests as [[|? ?]|], cols as [|? ?].
Qed.

Lemma serialize_unset_empty_source (s : DbtSource) :
  serialize_source (unset_empty_source s) = serialize_source s.
Proof.
  destruct s as [name db schema desc tables meta].
  unfold serialize_source, unset_empty_source.
  cbn [src_name src_database src_schema_name src_description src_tables
       src_meta].
  rewrite !serialize_tables_eq, <- list_fmap_compose.
  rewrite (list_fmap_ext ((YMap ∘ serialize_table) ∘ unset_empty_table)
             (YMap ∘ serialize_table) tables)
    by (intros i t _; simpl; by rewrite serialize_unset_empty_table).
  by destruct db as [[|? ?]|], schema as [[|? ?]|], desc as [|? ?],
    meta as [[|? ?]|].
Qed.

Lemma serialize_unset_empty_file (f : DbtSourceFile) :
  serialize_source_file (unset_empty_file f) = serialize_source_file f.
Proof.
  rewrite !serialize_source_file_shape. unfold unset_empty_file.
  cbn [sf_version sf_sources]. rewrite <- list_fmap_compose.
  by rewrite (list_fmap_ext ((YMap ∘ serialize_source) ∘ unset_empty_source)
                (YMap ∘ serialize_source) (sf_sources f))
    by (intros i s _; simpl; by rewrite serialize_unset_empty_source).
Qed.

Lemma unset_empty_in_domain {A} (truthy : A → bool) (o : option A) :
  unset_or_nonempty truthy (unset_empty truthy o) = true.
Proof.
  unfold unset_empty. destruct o as [x|]; simpl; [| done].
  by destruct (truthy x) eqn:E; simpl.
Qed.

Lemma forallb_fmap_true {A} (dom : A → bool) (h : A → A) (l : list A) :
  (∀ x, dom (h x) = true) → forallb dom (h <$> l) = true.
Proof.
  intros Hh. induction l as [|x l IH]; [done |].
  rewrite fmap_cons. cbn [forallb]. by rewrite Hh, IH.
Qed.

Lemma unset_empty_column_in_domain (c : DbtColumn) :
  column_in_domain (unset_empty_column c) = true.
Proof.
  unfold column_in_domain, unset_empty_column. simpl.
  by rewrite !unset_empty_in_domain.
Qed.

Lemma unset_empty_table_in_domain (t : DbtTable) :
  table_in_domain (unset_empty_table t) = true.
Proof.
  unfold table_in_domain, unset_empty_table. simpl.
  rewrite !unset_empty_in_domain. simpl.
  apply forallb_fmap_true, unset_empty_column_in_domain.
Qed.

Lemma unset_empty_source_in_domain (s : DbtSource) :
  source_in_domain (unset_empty_source s) = true.
Proof.
  unfold source_in_domain, unset_empty_source. simpl.
  rewrite !unset_empty_in_domain. simpl.
  apply forallb_fmap_true, unset_empty_table_in_domain.
Qed.

Lemma unset_empty_file_in_domain (f : DbtSourceFile) :
  file_in_domain (unset_empty_file f) = true.
Proof.
  unfold file_in_domain, unset_empty_file. simpl.
  apply forallb_fmap_true, unset_empty_source_in_domain.
Qed.
End canonical.

(** X9. What [_parse_source_file] reads back from the data that
    [_serialize_source_file] built for any document [f] is a document [g] in
    which every optional field is unset or non-empty, which serializes to the
    same data as [f], and which is read back from its own data unchanged. *)
Theorem read_back_is_canonical (f g : DbtSourceFile) :
  parse_source_file (YMap (serialize_source_file f)) = Some g →
  file_in_domain g = true
  ∧ serialize_source_file g = serialize_source_file f
  ∧ parse_source_file (YMap (serialize_source_file g)) = Some g.
Proof.
  rewrite parse_serialize_source_file. intros [= <-].
  assert (file_in_domain (unset_empty_file f) = true) as Hdom
    by apply unset_empty_file_in_domain.
  split_and!; [done | apply serialize_unset_empty_file |].
  rewrite parse_serialize_source_file. f_equal.
  by apply unset_empty_file_id.
Qed.

Lemma read_back_is_canonical_witness :
  let f := {| sf_version := 2;
              sf_sources :=
                [src_ds [ {| tbl_name := "t"; tbl_identifier := Some "";
                             tbl_description := ""; 
                             tbl_columns := [col_empty_fields];
                             tbl_meta := Some []; tbl_tests := None |} ]] |} in
  let g := unset_empty_file f in
  file_in_domain g = true
  ∧ serialize_source_file g = serialize_source_file f
  ∧ parse_source_file (YMap (serialize_source_file g)) = Some g.
Proof.
  intros f g. apply (read_back_is_canonical f g). reflexivity.
Defined.

(** ** Reading raw data and writing it back *)

(** Case analysis on a raw value read with [.get]; the cases that the parse
    under [H] rejects are closed. *)
Ltac case_raw x H :=
  destruct x as [[| | | [|? ?] | [|? ?] | [|? ?]]|]; cbn in H;
  try discriminate H.

Section restriction.


Lemma mapM_None_at {A B} (f : A → option B) (l1 l2 : list A) (x : A) :
  f x = None → mapM f (l1 ++ x :: l2) = None.
Proof.
  intros Hx. induction l1 as [|a l1 IH]; simpl.
  - by rewrite Hx.
  - rewrite IH. by destruct (f a).
Qed.

Lemma restrict_entries_parsed {A} (parse : Yaml → option A)
    (ser : A → dict) (restrict : dict → dict) (v : Yaml) (items : list Yaml)
    (xs : list A) :
  (∀ x a, parse x = Some a → ∃ d, x = YMap d ∧ ser a = restrict d) →
  py_iter v = Some items → mapM parse items = Some xs →
  YList ((YMap ∘ ser) <$> xs) = restrict_entries restrict v.
Proof.
  intros Hparse Hiter Hmap. apply mapM_Some in Hmap.
  unfold restrict_entries. f_equal.
  destruct v as [| | |s|l|d]; simpl in Hiter; try discriminate Hiter;
    injection Hiter as <-.
  - destruct s as [|c s]; simpl in Hmap.
    + by apply Forall2_nil_inv_l in Hmap as ->.
    + apply Forall2_cons_inv_l in Hmap as (a & ? & Ha & _).
      by destruct (Hparse _ _ Ha) as (? & ? & _).
  - induction Hmap as [|x a l xs Hx _ IH]; [done |].
    rewrite !fmap_cons, IH. f_equal.
    destruct (Hparse _ _ Hx) as (dx & -> & Hd). simpl. by rewrite Hd.
  - destruct d as [|[k w] d]; simpl in Hmap.
    + by apply Forall2_nil_inv_l in Hmap as ->.
    + apply Forall2_cons_inv_l in Hmap as (a & ? & Ha & _).
      by destruct (Hparse _ _ Ha) as (? & ? & _).
Qed.

Lemma parse_column_restrict (x : Yaml) (c : DbtColumn) :
  parse_column x = Some c →
  ∃ d, x = YMap d ∧ serialize_column c = restrict_column d.
Proof.
  destruct x as [| | | | |d]; try discriminate. intros H. exists d.
  split; [done |]. revert H.
  unfold parse_column, dict_get_default, restrict_column, name_entry,
    keep_keys, kept_entry.
  cbn [as_dict mbind option_bind omap list_omap].
  generalize (dict_get "name" d) (dict_get "data_type" d)
    (dict_get "description" d) (dict_get "meta" d) (dict_get "tests" d).
  intros n dt de me te H.
  case_raw n H; case_raw dt H; case_raw de H; case_raw me H; case_raw te H;
    injection H as <-; reflexivity.
Qed.

Lemma parse_columns_restrict (v : option Yaml) (cols : list DbtColumn) :
  parse_columns v = Some cols →
  (if truthy_list cols
   then [("columns", YList ((YMap ∘ serialize_column) <$> cols))]
   else [])
  = match v with
    | Some x =>
        if yaml_truthy x then [("columns", restrict_entries restrict_column x)]
        else []
    | None => []
    end.
Proof.
  unfold parse_columns. destruct v as [x|]; simpl; [| by intros [= <-]].
  destruct (yaml_truthy x) eqn:Ex; [| by intros [= <-]].
  destruct (py_iter x) as [items|] eqn:Eiter; simpl; [| done].
  intros Hmap.
  rewrite <- (restrict_entries_parsed parse_column serialize_column
                restrict_column x items cols parse_column_restrict Eiter Hmap).
  destruct cols as [|c cols]; [| done].
  apply mapM_Some, Forall2_nil_inv_r in Hmap as ->.
  by destruct x as [| | |[|? ?]|[|? ?]|[|? ?]].
Qed.

Lemma parse_table_restrict (x : Yaml) (t : DbtTable) :
  parse_table x = Some t →
  ∃ d, x = YMap d ∧ serialize_table t = restrict_table d.
Proof.
  destruct x as [| | | | |d]; try discriminate. intros H. exists d.
  split; [done |]. unfold parse_table in H.
  cbn [as_dict mbind option_bind] in H.
  destruct (parse_columns (dict_get "columns" d)) as [cols|] eqn:Ecols;
    [| discriminate H].
  apply parse_columns_restrict in Ecols.
  unfold restrict_table. rewrite <- Ecols. clear Ecols. revert H.
  unfold dict_get_default, name_entry, keep_keys, kept_entry.
  cbn [mbind option_bind omap list_omap].
  generalize (dict_get "name" d) (dict_get "identifier" d)
    (dict_get "description" d) (dict_get "meta" d) (dict_get "tests" d).
  intros n ident de me te H.
  case_raw n H; case_raw ident H; case_raw de H; case_raw me H;
    case_raw te H; injection H as <-; unfold serialize_table;
    cbn [tbl_name tbl_identifier tbl_description tbl_columns tbl_meta
         tbl_tests];
    rewrite serialize_columns_eq; by destruct cols.
Qed.

Lemma parse_source_restrict (x : Yaml) (s : DbtSource) :
  parse_source x = Some s →
  ∃ d, x = YMap d ∧ serialize_source s = restrict_source d.
Proof.
  destruct x as [| | | | |d]; try discriminate. intros H. exists d.
  split; [done |]. unfold parse_source in H.
  cbn [as_dict mbind option_bind] in H.
  destruct (py_iter _) as [items|] eqn:Eiter; [| discriminate H].
  cbn [mbind option_bind] in H.
  destruct (mapM parse_table items) as [tables|] eqn:Emap; [| discriminate H].
  cbn [mbind option_bind] in H.
  pose proof (restrict_entries_parsed parse_table serialize_table
                restrict_table _ items tables parse_table_restrict Eiter Emap)
    as Htables.
  unfold restrict_source. rewrite <- Htables. clear Htables Eiter Emap.
  revert H. unfold dict_get_default, name_entry, keep_keys, kept_entry.
  cbn [mbind option_bind omap list_omap].
  generalize (dict_get "name" d) (dict_get "database" d)
    (dict_get "schema" d) (dict_get "description" d) (dict_get "meta" d).
  intros n db sc de me H.
  case_raw n H; case_raw db H; case_raw sc H; case_raw de H;
    case_raw me H; injection H as <-; unfold serialize_source;
    cbn [src_name src_database src_schema_name src_description src_tables
         src_meta];
    by rewrite serialize_tables_eq.
Qed.
End restriction.

(** X10. [_parse_source_file] rejects a document as a whole when an entry
    lacks the key [name]: a source entry, a table entry of a source, or a
    column entry of a table. *)
Theorem parse_rejects_entry_without_name (d sd td cd : dict)
    (ss1 ss2 ts1 ts2 cs1 cs2 : list Yaml) :
  dict_get "sources" d = Some (YList (ss1 ++ YMap sd :: ss2)) →
  dict_get "name" sd = None
  ∨ (dict_get "tables" sd = Some (YList (ts1 ++ YMap td :: ts2))
     ∧ (dict_get "name" td = None
        ∨ (dict_get "columns" td = Some (YList (cs1 ++ YMap cd :: cs2))
           ∧ dict_get "name" cd = None))) →
  parse_source_file (YMap d) = None.
Proof.
  intros Hd Hsd.
  assert (parse_source (YMap sd) = None) as Hsource.
  { unfold parse_source, dict_get_default. cbn [as_dict mbind option_bind].
    destruct Hsd as [Hname | [Htables Htd]].
    - rewrite Hname. simpl.
      destruct (py_iter _) as [items|]; simpl; [| done].
      by destruct (mapM parse_table items).
    - rewrite Htables. simpl.
      assert (parse_table (YMap td) = None) as Htable.
      { unfold parse_table. cbn [as_dict mbind option_bind].
        destruct Htd as [Hname | [Hcols Hcd]].
        - rewrite Hname. simpl. by destruct (parse_columns _).
        - rewrite Hcols. unfold parse_columns. simpl.
          assert (truthy_list (cs1 ++ YMap cd :: cs2) = true) as ->
            by by destruct cs1.
          rewrite (mapM_None_at parse_column); [done |].
          unfold parse_column. cbn [as_dict mbind option_bind].
          by rewrite Hcd. }
      by rewrite (mapM_None_at parse_table). }
  unfold parse_source_file, dict_get_default. cbn [as_dict mbind option_bind].
  rewrite Hd. simpl. by rewrite (mapM_None_at parse_source).
Qed.

Lemma parse_rejects_entry_without_name_witness :
  parse_source_file
    (YMap [("version", YInt 2);
           ("sources",
            YList [YMap [("name", YStr "s");
                         ("tables",
                          YList [YMap [("name", YStr "t");
                                       ("columns",
                                        YList [YMap [("name", YStr "a")];
                                               YMap [("data_type",
                                                      YStr "INT64")]])]])]])])
  = None.
Proof.
  apply (parse_rejects_entry_without_name _
           [("name", YStr "s");
            ("tables",
             YList [YMap [("name", YStr "t");
                          ("columns",
                           YList [YMap [("name", YStr "a")];
                                  YMap [("data_type", YStr "INT64")]])]])]
           [("name", YStr "t");
            ("columns",
             YList [YMap [("name", YStr "a")];
                    YMap [("data_type", YStr "INT64")]])]
           [("data_type", YStr "INT64")]
           [] [] [] [] [YMap [("name", YStr "a")]] []).
  - reflexivity.
  - right. split; [reflexivity |]. right. split; reflexivity.
Defined.

(** Raw data with the field types of the document model are accepted. *)
Lemma typed_column_parses (x : Yaml) :
  typed_column x = true → is_Some (parse_column x).
Proof.
  destruct x as [| | | | |d]; try discriminate.
  unfold typed_column, parse_column, dict_get_default.
  cbn [as_dict mbind option_bind].
  generalize (dict_get "name" d) (dict_get "data_type" d)
    (dict_get "description" d) (dict_get "meta" d) (dict_get "tests" d).
  intros n dt de me te H.
  case_raw n H; case_raw dt H; case_raw de H; case_raw me H; case_raw te H;
    by eexists.
Qed.

Lemma typed_entries_parse {A} (typed : Yaml → bool) (parse : Yaml → option A)
    (v : option Yaml) :
  (∀ x, typed x = true → is_Some (parse x)) →
  typed_entries typed v = true →
  ∃ items xs, py_iter (default (YList []) v) = Some items
              ∧ mapM parse items = Some xs.
Proof.
  intros Hparse Hv. destruct v as [[| | | |items|]|]; try discriminate Hv.
  - exists items. simpl in Hv. rewrite forallb_forall in Hv.
    assert (is_Some (mapM parse items)) as [xs Hxs].
    { apply mapM_is_Some, Forall_forall. intros x Hx.
      apply Hparse, Hv. by apply list_elem_of_In. }
    by exists xs.
  - by exists [], [].
Qed.

Lemma typed_table_parses (x : Yaml) :
  typed_table x = true → is_Some (parse_table x).
Proof.
  destruct x as [| | | | |d]; try discriminate.
  unfold typed_table, parse_table, dict_get_default.
  cbn [as_dict mbind option_bind]. intros H.
  apply andb_true_iff in H as [H Hcols].
  assert (is_Some (parse_columns (dict_get "columns" d))) as [cols ->].
  { unfold parse_columns.
    destruct (truthy_opt yaml_truthy (dict_get "columns" d)) eqn:E;
      [| by eexists].
    destruct (typed_entries_parse typed_column parse_column _
                typed_column_parses Hcols) as (items & cs & Hiter & Hmap).
    destruct (dict_get "columns" d) as [v|]; [| discriminate E].
    simpl in *. rewrite Hiter. simpl. by rewrite Hmap. }
  cbn [mbind option_bind]. revert H.
  generalize (dict_get "name" d) (dict_get "identifier" d)
    (dict_get "description" d) (dict_get "meta" d) (dict_get "tests" d).
  intros n ident de me te H.
  case_raw n H; case_raw ident H; case_raw de H; case_raw me H;
    case_raw te H; by eexists.
Qed.

Lemma typed_source_parses (x : Yaml) :
  typed_source x = true → is_Some (parse_source x).
Proof.
  destruct x as [| | | | |d]; try discriminate.
  unfold typed_source, parse_source, dict_get_default.
  cbn [as_dict mbind option_bind]. intros H.
  apply andb_true_iff in H as [H Htables].
  destruct (typed_entries_parse typed_table parse_table _
              typed_table_parses Htables) as (items & ts & -> & Hmap).
  cbn [mbind option_bind]. rewrite Hmap. cbn [mbind option_bind]. revert H.
  generalize (dict_get "name" d) (dict_get "database" d)
    (dict_get "schema" d) (dict_get "description" d) (dict_get "meta" d).
  intros n db sc de me H.
  case_raw n H; case_raw db H; case_raw sc H; case_raw de H;
    case_raw me H; by eexists.
Qed.

Lemma typed_file_parses (d : dict) :
  typed_file d = true → is_Some (parse_source_file (YMap d)).
Proof.
  unfold typed_file, parse_source_file, dict_get_default.
  cbn [as_dict mbind option_bind]. intros H.
  apply andb_true_iff in H as [H Hsources].
  destruct (typed_entries_parse typed_source parse_source _
              typed_source_parses Hsources) as (items & ss & -> & Hmap).
  cbn [mbind option_bind]. rewrite Hmap. cbn [mbind option_bind].
  destruct (dict_get "version" d) as [[| | z | | |]|]; try discriminate H;
    by eexists.
Qed.

(** What is parsed from raw data serializes to the data restricted to the
    keys of the document model. *)
Lemma parse_source_file_restrict (d : dict) (f : DbtSourceFile) :
  parse_source_file (YMap d) = Some f →
  serialize_source_file f = restrict_file d.
Proof.
  intros H. unfold parse_source_file in H.
  cbn [as_dict mbind option_bind] in H.
  destruct (py_iter _) as [items|] eqn:Eiter; [| discriminate H].
  cbn [mbind option_bind] in H.
  destruct (mapM parse_source items) as [sources|] eqn:Emap;
    [| discriminate H].
  cbn [mbind option_bind] in H.
  pose proof (restrict_entries_parsed parse_source serialize_source
                restrict_source _ items sources parse_source_restrict
                Eiter Emap) as Hsources.
  rewrite serialize_source_file_shape. unfold restrict_file.
  rewrite <- Hsources.
  destruct (dict_get_default "version" (YInt 2) d); try discriminate H.
  by injection H as <-.
Qed.

(** X11. Reading raw data and writing it back, for raw data [d] with the
    field types of the document model: the version an integer or absent;
    sources, tables and non-empty columns lists of dictionaries; in every
    entry a string under [name], a string or nothing under [description],
    and under each other optional key a value of its type (string, mapping,
    list), null or nothing; any other key unconstrained. Such data are
    parsed, and the data that [_serialize_source_file] builds from the parsed
    document is [d] restricted to the keys of the document model, in the
    fixed key order, at every level: the version (2 when absent) and the
    sources; of every entry its name and the optional keys whose value is
    neither null nor empty; the tables of every source; the columns of a
    table when there are any. Every other key is dropped. *)
Theorem parse_then_serialize_restricts (d : dict) :
  typed_file d = true →
  ∃ f, parse_source_file (YMap d) = Some f
       ∧ serialize_source_file f = restrict_file d.
Proof.
  intros Hd. destruct (typed_file_parses d Hd) as [f Hf].
  exists f. split; [done |]. by apply parse_source_file_restrict.
Qed.

Lemma parse_then_serialize_restricts_witness :
  typed_file raw_doc = true
  ∧ ∃ f, parse_source_file (YMap raw_doc) = Some f
         ∧ serialize_source_file f
           = [("version", YInt 2);
              ("sources",
               YList [YMap [("name", YStr "ds"); ("schema", YStr "ds");
                            ("tables",
                             YList [YMap [("name", YStr "t1");
                                          ("columns",
                                           YList [YMap [("name",
                                                         YStr "id")]])]])]])].
Proof.
  split; [reflexivity |].
  apply (parse_then_serialize_restricts raw_doc). reflexivity.
Defined.

(** ** Empty and unset fields under reconciliation *)

Section empty_or_unset.

Lemma filter_fmap_same {A} (P : A → Prop) `{!∀ x, Decision (P x)}
    (h : A → A) (l : list A) :
  (∀ x, P (h x) ↔ P x) → filter P (h <$> l) = h <$> filter P l.
Proof.
  intros Hh. induction l as [|x l IH]; [done |].
  rewrite fmap_cons, !filter_cons, IH.
  destruct (decide (P x)) as [Hx | Hx].
  - rewrite decide_True by by apply Hh. done.
  - rewrite decide_False; [done |]. intros Hhx. by apply Hx, Hh.
Qed.

Lemma index_by_fmap_same {A} (key : A → string) (h : A → A) (l : list A)
    (k : string) :
  (∀ x, key (h x) = key x) →
  index_by key (h <$> l) !! k = h <$> (index_by key l !! k).
Proof.
  intros Hh. rewrite !index_by_last_filter.
  rewrite (filter_fmap_same (λ x, key x = k) h l)
    by (intros x; by rewrite Hh).
  apply fmap_last.
Qed.

Lemma unset_empty_idem {A} (truthy : A → bool) (o : option A) :
  unset_empty truthy (unset_empty truthy o) = unset_empty truthy o.
Proof.
  unfold unset_empty. destruct o as [x|]; simpl; [| done].
  destruct (truthy x) eqn:E; simpl; [| done]. by rewrite E.
Qed.

Lemma or_str_unset_empty (a : option string) (b : string) :
  or_str (unset_empty truthy_str a) b = or_str a b.
Proof. by destruct a as [[|c a]|]. Qed.

Lemma unset_empty_column_idem (c : DbtColumn) :
  unset_empty_column (unset_empty_column c) = unset_empty_column c.
Proof.
  unfold unset_empty_column. simpl. by rewrite !unset_empty_idem.
Qed.

Lemma unset_empty_merged_column (ys : list DbtColumn) (c : BigQueryColumn) :
  unset_empty_column (merged_column (unset_empty_column <$> ys) c)
  = unset_empty_column (merged_column ys c).
Proof.
  unfold merged_column.
  rewrite (index_by_fmap_same col_name unset_empty_column) by done.
  destruct (_ !! _) as [y|]; simpl; [| done].
  unfold unset_empty_column, update_column. simpl.
  by rewrite !unset_empty_idem.
Qed.

Lemma unset_empty_merge_columns (bq : list BigQueryColumn)
    (ys : list DbtColumn) (rd : bool) :
  unset_empty_column <$> merge_columns bq (unset_empty_column <$> ys) rd
  = unset_empty_column <$> merge_columns bq ys rd.
Proof.
  rewrite !merge_columns_eq, !fmap_app. f_equal.
  - rewrite <- !list_fmap_compose. apply list_fmap_ext.
    intros i c _. apply unset_empty_merged_column.
  - destruct rd; [done |]. unfold doc_only_columns.
    rewrite (filter_fmap_same (λ c, col_name c ∉ bqc_name <$> bq)) by done.
    rewrite <- list_fmap_compose. apply list_fmap_ext.
    intros i c _. apply unset_empty_column_idem.
Qed.

Lemma unset_empty_table_idem (t : DbtTable) :
  unset_empty_table (unset_empty_table t) = unset_empty_table t.
Proof.
  unfold unset_empty_table. simpl. rewrite !unset_empty_idem. f_equal.
  rewrite <- list_fmap_compose. apply list_fmap_ext.
  intros i c _. apply unset_empty_column_idem.
Qed.

Lemma unset_empty_merge_table (b : BigQueryTable) (y : option DbtTable)
    (rc : bool) :
  unset_empty_table (merge_table b (unset_empty_table <$> y) rc)
  = unset_empty_table (merge_table b y rc).
Proof.
  destruct y as [y|]; [| done]. unfold merge_table, unset_empty_table. simpl.
  rewrite !or_empty, unset_empty_merge_columns. by rewrite !unset_empty_idem.
Qed.

Lemma unset_empty_merged_table (ys : list DbtTable) (rc : bool)
    (b : BigQueryTable) :
  unset_empty_table (merged_table (unset_empty_table <$> ys) rc b)
  = unset_empty_table (merged_table ys rc b).
Proof.
  unfold merged_table.
  rewrite (index_by_fmap_same tbl_name unset_empty_table) by done.
  apply unset_empty_merge_table.
Qed.

Lemma unset_empty_source_idem (s : DbtSource) :
  unset_empty_source (unset_empty_source s) = unset_empty_source s.
Proof.
  unfold unset_empty_source. simpl. rewrite !unset_empty_idem. f_equal.
  rewrite <- list_fmap_compose. apply list_fmap_ext.
  intros i c _. apply unset_empty_table_idem.
Qed.

Lemma unset_empty_merge_sources (bq : list BigQueryTable)
    (o : option DbtSource) (source_name project_id dataset_id : string)
    (rt rc : bool) :
  unset_empty_source
    (merge_sources bq (unset_empty_source <$> o) source_name project_id
       dataset_id rt rc)
  = unset_empty_source
      (merge_sources bq o source_name project_id dataset_id rt rc).
Proof.
  destruct o as [s|]; [| done]. rewrite !merge_sources_eq.
  unfold unset_empty_source.
  cbn [fmap option_fmap option_map default from_option id src_name
       src_database src_schema_name src_description src_tables src_meta].
  cbv zeta.
  cbn [src_name src_database src_schema_name src_description src_tables
       src_meta].
  rewrite !or_str_unset_empty, !unset_empty_idem. f_equal.
  rewrite !fmap_app. f_equal.
  - rewrite <- !list_fmap_compose. apply list_fmap_ext.
    intros i b _. apply unset_empty_merged_table.
  - destruct rt; [done |]. unfold doc_only_tables.
    rewrite (filter_fmap_same (λ t, tbl_name t ∉ bqt_table_id <$> bq)) by done.
    rewrite <- list_fmap_compose. apply list_fmap_ext.
    intros i t _. apply unset_empty_table_idem.
Qed.

Lemma source_matches_unset_empty (source_name dataset_id : string)
    (s : DbtSource) :
  dataset_id ≠ "" →
  source_matches source_name dataset_id (unset_empty_source s)
  = source_matches source_name dataset_id s.
Proof.
  intros Hd. unfold source_matches, unset_empty_source. simpl. f_equal.
  destruct (src_schema_name s) as [[|c n]|]; simpl; [| done | done].
  by destruct dataset_id.
Qed.

Lemma unset_empty_merge_source_file (bq : list BigQueryTable)
    (o : option DbtSourceFile) (source_name project_id dataset_id : string)
    (rt rc : bool) :
  dataset_id ≠ "" →
  unset_empty_file
    (merge_source_file bq (unset_empty_file <$> o) source_name project_id
       dataset_id rt rc)
  = unset_empty_file
      (merge_source_file bq o source_name project_id dataset_id rt rc).
Proof.
  intros Hd. destruct o as [f|]; [| done]. rewrite !merge_source_file_eq.
  unfold unset_empty_file.
  cbn [fmap option_fmap option_map default from_option id sf_version
       sf_sources].
  cbv zeta. cbn [sf_version sf_sources]. f_equal.
  rewrite !(filter_fmap_same _ unset_empty_source)
    by (intros s; by rewrite source_matches_unset_empty).
  rewrite !fmap_app, fmap_last. f_equal.
  - rewrite <- list_fmap_compose. apply list_fmap_ext.
    intros i s _. apply unset_empty_source_idem.
  - simpl. f_equal. apply unset_empty_merge_sources.
Qed.
End empty_or_unset.

(** The data written after a merge is the same for a document and for the
    document in which every empty optional value is unset. *)
Lemma merge_ignores_empty_or_unset_file (bq : list BigQueryTable)
    (f : DbtSourceFile) (source_name project_id dataset_id : string)
    (rt rc : bool) :
  dataset_id ≠ "" →
  serialize_source_file
    (merge_source_file bq (Some (unset_empty_file f)) source_name project_id
       dataset_id rt rc)
  = serialize_source_file
      (merge_source_file bq (Some f) source_name project_id dataset_id rt rc).
Proof.
  intros Hd.
  rewrite <- (serialize_unset_empty_file (merge_source_file _ (Some f) _ _ _ _ _)).
  rewrite <- (unset_empty_merge_source_file bq (Some f)) by done.
  by rewrite serialize_unset_empty_file.
Qed.

(** X12. For a non-empty dataset id, the data written after
    [merge_source_file] does not depend on whether an optional field of the
    existing document is empty or unset: merging the document in which every
    empty optional value is unset serializes to the same data as merging the
    document itself. *)
Theorem merge_ignores_empty_or_unset (bq : list BigQueryTable)
    (f : DbtSourceFile) (source_name project_id dataset_id : string)
    (rt rc : bool) :
  dataset_id ≠ "" →
  serialize_source_file
    (merge_source_file bq (Some (unset_empty_file f)) source_name project_id
       dataset_id rt rc)
  = serialize_source_file
      (merge_source_file bq (Some f) source_name project_id dataset_id rt rc).
Proof. apply merge_ignores_empty_or_unset_file. Qed.

Lemma merge_ignores_empty_or_unset_witness :
  let f := {| sf_version := 2;
              sf_sources :=
                [ {| src_name := "ds"; src_database := Some "";
                     src_schema_name := Some "ds"; src_description := "";
                     src_tables :=
                       [ {| tbl_name := "t1"; tbl_identifier := Some "";
                            tbl_description := "";
                            tbl_columns := [col_empty_fields];
                            tbl_meta := Some []; tbl_tests := Some [] |} ];
                     src_meta := Some [] |} ] |} in
  "ds" ≠ ""
  ∧ serialize_source_file
      (merge_source_file [bq_t1] (Some (unset_empty_file f)) "ds" "p" "ds"
         false false)
    = serialize_source_file
        (merge_source_file [bq_t1] (Some f) "ds" "p" "ds" false false).
Proof.
  intros f. split; [by_eval |].
  apply (merge_ignores_empty_or_unset [bq_t1] f). by_eval.
Defined.

(** ** Running the update path again *)

Section rerun.

Lemma filter_nil_Forall {A} (P : A → Prop) `{!∀ x, Decision (P x)}
    (l : list A) :
  filter P l = [] → Forall (λ x, ¬ P x) l.
Proof.
  intros Hl. apply Forall_forall. intros x Hx HP.
  by apply (filter_nil_not_elem_of P l x).
Qed.

Lemma filter_one_split {A} (P : A → Prop) `{!∀ x, Decision (P x)}
    (l : list A) (z : A) :
  filter P l = [z] →
  ∃ l1 l2, l = l1 ++ z :: l2 ∧ P z
           ∧ Forall (λ x, ¬ P x) l1 ∧ Forall (λ x, ¬ P x) l2.
Proof.
  induction l as [|a l IH]; [done |]. rewrite filter_cons.
  destruct (decide (P a)) as [Ha | Ha].
  - intros [= -> Hl]. exists [], l. split_and!; [done | done | constructor |].
    by apply (filter_nil_Forall P).
  - intros Hl. destruct (IH Hl) as (l1 & l2 & -> & Hz & H1 & H2).
    exists (a :: l1), l2. split_and!; [done | done | by constructor | done].
Qed.

Lemma dataset_source_unset_empty (schema : string) (s : DbtSource) :
  schema ≠ "" →
  dataset_source schema (unset_empty_source s) = dataset_source schema s.
Proof.
  intros Hs. rewrite <- !dataset_source_matches.
  by apply source_matches_unset_empty.
Qed.

Lemma find_source_name_unset_empty (schema : string) (f : DbtSourceFile) :
  schema ≠ "" →
  find_source_name schema (Some (unset_empty_file f))
  = find_source_name schema (Some f).
Proof.
  intros Hs. unfold find_source_name.
  change (λ source, opt_str_eqb (src_schema_name source) schema
                    || String.eqb (src_name source) schema)
    with (dataset_source schema).
  unfold unset_empty_file. cbn [sf_sources].
  induction (sf_sources f) as [|s l IH]; [done |].
  rewrite fmap_cons. cbn [List.find].
  rewrite dataset_source_unset_empty by done.
  by destruct (dataset_source schema s).
Qed.

(** After an update the source that [apply] looks for is the one it looked
    for before. *)
Lemma find_source_name_after_update (bq : list BigQueryTable)
    (f : DbtSourceFile) (project_id schema : string)
    (sync_columns remove_deleted : bool) :
  one_source_per_dataset schema f →
  find_source_name schema
    (Some (apply_update bq (Some f) project_id schema sync_columns
             remove_deleted))
  = find_source_name schema (Some f).
Proof.
  intros [Hnd Hlen].
  destruct (filter (λ s, dataset_source schema s = true) (sf_sources f))
    as [|z [|z' l']] eqn:E; [| | simpl in Hlen; lia].
  - assert (Forall (λ s, dataset_source schema s = false) (sf_sources f))
      as Hds.
    { apply (filter_nil_Forall _) in E. eapply Forall_impl; [exact E |].
      intros s Hs. by apply not_true_is_false. }
    destruct (apply_update_no_dataset_source bq f project_id schema
                sync_columns remove_deleted Hds) as [-> ->].
    unfold find_source_name.
    change (λ source, opt_str_eqb (src_schema_name source) schema
                      || String.eqb (src_name source) schema)
      with (dataset_source schema).
    cbn [sf_sources]. rewrite find_dataset_source_first; [done | done |].
    unfold dataset_source. cbn [src_name src_schema_name opt_str_eqb].
    by rewrite String.eqb_refl.
  - apply filter_one_split in E as (l1 & l2 & Hf & Hz & H1 & H2).
    assert (Forall (λ s, dataset_source schema s = false) (l1 ++ l2)) as Hds.
    { apply Forall_app. split; (eapply Forall_impl; [eassumption |]);
        intros s Hs; by apply not_true_is_false. }
    assert (find_source_name schema (Some f) = src_name z) as Hname.
    { unfold find_source_name.
      change (λ source, opt_str_eqb (src_schema_name source) schema
                        || String.eqb (src_name source) schema)
        with (dataset_source schema).
      rewrite Hf, find_dataset_source_first; [done | | done].
      by apply Forall_app in Hds as [? _]. }
    rewrite Hname. unfold apply_update, apply_flags. rewrite Hname.
    rewrite merge_source_file_eq. cbv zeta. cbn [default from_option id].
    assert (Forall (λ s, source_matches (src_name z) schema s ≠ true)
              (l1 ++ l2)) as Hnm.
    { apply Forall_forall. intros s Hs. apply source_matches_false.
      eapply Forall_forall in Hds; [| done].
      apply dataset_source_false in Hds as [_ Hschema]. split; [| done].
      intros Hn. rewrite Hf in Hnd.
      rewrite fmap_app, fmap_cons in Hnd.
      apply NoDup_app in Hnd as (_ & Hl1 & Hl2).
      apply NoDup_cons in Hl2 as [Hz2 _].
      apply elem_of_app in Hs as [Hs | Hs].
      - apply (Hl1 (src_name s)); [by apply list_elem_of_fmap_2 |].
        rewrite Hn. by left.
      - apply Hz2. rewrite <- Hn. by apply list_elem_of_fmap_2. }
    assert (source_matches (src_name z) schema z = true) as Hzm.
    { unfold source_matches. by rewrite String.eqb_refl. }
    apply Forall_app in Hnm as [Hnm1 Hnm2].
    assert (∀ l : list DbtSource,
              Forall (λ s, source_matches (src_name z) schema s ≠ true) l →
              filter (λ s, source_matches (src_name z) schema s = true) l = []
              ∧ filter (λ s, source_matches (src_name z) schema s ≠ true) l
                = l) as Hfilter.
    { intros l Hl. induction Hl as [|s l Hs _ [IH1 IH2]]; [done |].
      rewrite filter_cons_False, filter_cons_True by done.
      by rewrite IH1, IH2. }
    destruct (Hfilter l1 Hnm1) as [Hm1 Ho1].
    destruct (Hfilter l2 Hnm2) as [Hm2 Ho2].
    rewrite Hf, !filter_app, !filter_cons.
    rewrite decide_False by (intros Hn; by apply Hn).
    rewrite decide_True by done.
    rewrite Hm1, Hm2, Ho1, Ho2. cbn [app last sf_sources].
    unfold find_source_name.
    change (λ source, opt_str_eqb (src_schema_name source) schema
                      || String.eqb (src_name source) schema)
      with (dataset_source schema).
    cbn [sf_sources]. rewrite find_dataset_source_first.
    + by rewrite merge_sources_eq.
    + done.
    + rewrite merge_sources_eq. unfold dataset_source in *.
      cbv zeta. cbn [default from_option id src_name src_schema_name].
      apply orb_true_iff in Hz as [Hz | Hz]; apply orb_true_iff;
        [left | by right].
      destruct (src_schema_name z) as [n|]; simpl in Hz; [| done].
      apply String.eqb_eq in Hz as ->. rewrite or_str_same. simpl.
      apply String.eqb_refl.
Qed.
End rerun.

(** X13. Running the update path of [apply] again on the data it wrote, with
    the same snapshot, project, dataset and flags, writes the same data:
    provided the snapshot has distinct table ids and column names, the
    dataset id is not empty, and the existing document has distinct source
    names and at most one source with the dataset as its schema or name. *)
Theorem apply_existing_rerun (bq : list BigQueryTable) (data : Yaml)
    (f : DbtSourceFile) (project_id schema : string)
    (sync_columns remove_deleted : bool) (written : dict) :
  snapshot_unique bq →
  schema ≠ "" →
  parse_source_file data = Some f →
  one_source_per_dataset schema f →
  apply_existing bq data project_id schema sync_columns remove_deleted
  = Some written →
  apply_existing bq (YMap written) project_id schema sync_columns
    remove_deleted
  = Some written.
Proof.
  intros Hbq Hschema Hparse Hone. unfold apply_existing. rewrite Hparse.
  cbn [mbind option_bind]. intros [= <-].
  rewrite parse_serialize_source_file. cbn [mbind option_bind]. f_equal.
  unfold apply_update at 1. unfold apply_flags at 1. cbv zeta.
  rewrite find_source_name_unset_empty by done.
  rewrite find_source_name_after_update by done.
  rewrite merge_ignores_empty_or_unset_file by done.
  unfold apply_update, apply_flags. cbv zeta.
  rewrite merge_source_file_twice by done.
  by rewrite !orb_diag.
Qed.

Lemma apply_existing_rerun_witness :
  let data := YMap raw_doc in
  let written :=
    [("version", YInt 2);
     ("sources",
      YList [YMap [("name", YStr "ds"); ("database", YStr "p");
                   ("schema", YStr "ds");
                   ("tables",
                    YList [YMap [("name", YStr "t1");
                                 ("columns",
                                  YList [YMap [("name", YStr "id");
                                               ("data_type", YStr "INT64")];
                                         YMap [("name", YStr "name");
                                               ("data_type",
                                                YStr "STRING")]])]])]])] in
  apply_existing [bq_t1] data "p" "ds" true true = Some written
  ∧ apply_existing [bq_t1] (YMap written) "p" "ds" true true = Some written.
Proof.
  intros data written. split; [reflexivity |].
  apply (apply_existing_rerun [bq_t1] data
           {| sf_version := 2;
              sf_sources :=
                [ {| src_name := "ds"; src_database := None;
                     src_schema_name := Some "ds"; src_description := "";
                     src_tables :=
                       [ {| tbl_name := "t1"; tbl_identifier := None;
                            tbl_description := "";
                            tbl_columns :=
                              [ {| col_name := "id"; col_data_type := None;
                                   col_description := ""; col_meta := None;
                                   col_tests := Some [] |} ];
                            tbl_meta := None; tbl_tests := None |} ];
                     src_meta := None |} ] |}
           "p" "ds" true true written).
  - by_eval.
  - by_eval.
  - reflexivity.
  - by_eval.
  - reflexivity.
Defined.

(** Without the conditions on the document a second run can differ: with a
    source [z] for the dataset followed by another source named as the
    dataset, the first run keeps both, and the second run, which now meets
    the other source first, drops it. *)
Example apply_existing_rerun_needs_one_source :
  let z := {| src_name := "z"; src_database := None;
              src_schema_name := Some "ds"; src_description := "";
              src_tables := []; src_meta := None |} in
  let x := {| src_name := "ds"; src_database := None;
              src_schema_name := Some "other"; src_description := "";
              src_tables := []; src_meta := None |} in
  let once := apply_update [bq_t1] (Some {| sf_version := 2;
                                            sf_sources := [z; x] |})
                "p" "ds" false false in
  let twice := apply_update [bq_t1] (Some once) "p" "ds" false false in
  src_name <$> sf_sources once = ["ds"; "z"]
  ∧ src_name <$> sf_sources twice = ["z"].
Proof. by vm_compute. Qed.

(** X14. In the output of [merge_source_file] exactly one source matches the
    target (by name or by schema), namely the merged source, which is the
    last one: this holds for every existing document, also for one in which
    several sources match. *)
Theorem merge_source_file_one_match (bq : list BigQueryTable)
    (o : option DbtSourceFile) (source_name project_id dataset_id : string)
    (rt rc : bool) :
  let out := merge_source_file bq o source_name project_id dataset_id rt rc in
  ∃ merged,
    last (sf_sources out) = Some merged
    ∧ filter (λ s, source_matches source_name dataset_id s = true)
        (sf_sources out) = [merged].
Proof.
  intros out. subst out.
  pose proof (select_source_merged bq o source_name project_id dataset_id
                rt rc) as Hsm.
  cbv zeta in Hsm. destruct Hsm as (others & merged & Hout & _ & Hsel).
  exists merged. rewrite select_source_eq in Hsel.
  injection Hsel as Hlast Hothers. rewrite Hout in *.
  rewrite last_snoc. split; [done |].
  rewrite filter_app in *.
  assert (filter (λ s, source_matches source_name dataset_id s = true) others
          = []) as Hnone.
  { apply filter_none. intros s Hs Hm. rewrite <- Hothers in Hs.
    apply elem_of_app in Hs as [Hs | Hs];
      by apply list_elem_of_filter in Hs as [Hs _]. }
  rewrite Hnone in *. simpl in *. rewrite filter_cons, filter_nil in *.
  destruct (decide (source_matches source_name dataset_id merged = true));
    [done | discriminate Hlast].
Qed.

(** X15. The number of sources that [merge_source_file] returns: the sources
    of the existing document that do not match the target, and one more. So
    the output has as many sources as the document when exactly one source
    matches, one more when none does, and fewer when several do. *)
Theorem merge_source_file_source_count (bq : list BigQueryTable)
    (f : DbtSourceFile) (source_name project_id dataset_id : string)
    (rt rc : bool) :
  (length (sf_sources
             (merge_source_file bq (Some f) source_name project_id dataset_id
                rt rc))
   + length (filter (λ s, source_matches source_name dataset_id s = true)
               (sf_sources f))
   = length (sf_sources f) + 1)%nat.
Proof.
  rewrite merge_source_file_eq. cbv zeta. cbn [default from_option id sf_sources].
  rewrite length_app. simpl.
  pose proof (filter_app_complement
                (λ s, source_matches source_name dataset_id s = true)
                (sf_sources f)) as Hperm.
  apply Permutation_length in Hperm. rewrite length_app in Hperm.
  lia.
Qed.
